(** * Cassandra PV Archiver Python client: request construction and
      response triage

    A shallow embedding of [cassandra_pv_archiver/admin_client.py] and
    [cassandra_pv_archiver/archive_client.py].

    Conventions of the embedding:
    - a Python [str] is the list of its Unicode code points ([pystr]);
      a [bytes] object is the list of its byte values ([bytes]); both
      are lists over [Z];
    - a raised exception is the [Raise] branch of [result];
    - a method that mutates [self] or talks to the outside world is a
      function in the state-and-exception monad [M]: the state is the
      command list for [ArchiveConfigurationCommands] and the trace of
      I/O events for the two clients;
    - functions of the Python standard library whose behaviour the
      properties do not depend on (JSON parsing and printing, gzip, text
      decoding, base64 decoding, the network, the file system) are the
      fields of a [World], which every client operation takes. *)

From Stdlib Require Import ZArith List String Ascii Bool Lia.
From Stdlib Require Import DecimalString.
Import ListNotations.

Set Warnings "-register-all".
Local Open Scope Z_scope.
Local Open Scope list_scope.

(** ** Strings and bytes *)

Definition pystr := list Z.
Definition bytes := list Z.

(** A string literal of the source, as the list of its code points. *)
Definition lit (s : string) : pystr :=
  map (fun c => Z.of_N (N_of_ascii c)) (list_ascii_of_string s).

Fixpoint str_eqb (a b : pystr) : bool :=
  match a, b with
  | [], [] => true
  | x :: a', y :: b' => (x =? y) && str_eqb a' b'
  | _, _ => false
  end.

Definition is_byte (b : Z) : bool := (0 <=? b) && (b <? 256).

Definition is_ascii (x : Z) : bool := (0 <=? x) && (x <? 128).

(** ** JSON-like values, exceptions and results

    [json] is the universe of values that [json.load] returns and that
    [json.dumps] prints: [None], [bool], [int], [float], [str], [list]
    and [dict] with string keys (in insertion order). Of a [float] the
    clients only observe whether it is zero. *)

Inductive json : Type :=
| JNull
| JBool (b : bool)
| JInt (z : Z)
| JFloat (nonzero : bool) (repr : pystr)
| JStr (s : pystr)
| JList (l : list json)
| JDict (d : list (pystr * json)).

Inductive exn : Type :=
| Exception (arg : json)
| NameError (name : pystr)
| KeyError (key : pystr)
| TypeError
| ValueError
| AttributeError
| UnicodeEncodeError
| UnicodeDecodeError
| OtherError (what : pystr).

Inductive result (A : Type) : Type :=
| Ok (a : A)
| Raise (e : exn).
Arguments Ok {A} a.
Arguments Raise {A} e.

Definition rbind {A B} (r : result A) (f : A -> result B) : result B :=
  match r with
  | Ok a => f a
  | Raise e => Raise e
  end.

Declare Scope result_scope.
Delimit Scope result_scope with res.
Notation "x <- r ;; k" := (rbind r (fun x => k))
  (at level 61, r at next level, right associativity) : result_scope.

Fixpoint rmap {A B} (f : A -> result B) (l : list A) : result (list B) :=
  match l with
  | [] => Ok []
  | a :: l' =>
      (b <- f a ;; bs <- rmap f l' ;; Ok (b :: bs))%res
  end.

(** ** Library codecs: [str.encode('utf_8')], [bytes.decode('ascii')],
    [str(int)] *)

Definition utf8_encode_char (c : Z) : result bytes :=
  if c <? 0 then Raise UnicodeEncodeError
  else if c <? 0x80 then Ok [c]
  else if c <? 0x800 then Ok [0xC0 + c / 64; 0x80 + c mod 64]
  else if (0xD800 <=? c) && (c <=? 0xDFFF) then Raise UnicodeEncodeError
  else if c <? 0x10000 then
    Ok [0xE0 + c / 4096; 0x80 + (c / 64) mod 64; 0x80 + c mod 64]
  else if c <? 0x110000 then
    Ok [0xF0 + c / 262144; 0x80 + (c / 4096) mod 64;
        0x80 + (c / 64) mod 64; 0x80 + c mod 64]
  else Raise UnicodeEncodeError.

Definition utf8_encode (s : pystr) : result bytes :=
  (chunks <- rmap utf8_encode_char s ;; Ok (List.concat chunks))%res.

Definition decode_ascii (b : bytes) : result pystr :=
  if forallb is_ascii b then Ok b else Raise UnicodeDecodeError.

(** [str(n)] and ['{0}'.format(n)] for an [int]. *)
Definition str_of_int (n : Z) : pystr :=
  lit (NilZero.string_of_int (Z.to_int n)).

(** ** [_encode_uri_part_custom] *)

Definition tilde_escape_byte (b : Z) : bytes :=
  if (b =? 0x2d) || (b =? 0x5f) || ((0x30 <=? b) && (b <=? 0x39))
     || ((0x41 <=? b) && (b <=? 0x5a)) || ((0x61 <=? b) && (b <=? 0x7a))
  then [b]
  else
    let high := b / 16 in
    let low := b mod 16 in
    let high_b := if high <? 10 then 0x30 + high else 0x37 + high in
    let low_b := if low <? 10 then 0x30 + low else 0x37 + low in
    [0x7e; high_b; low_b].

Definition _encode_uri_part_custom (uri_part : pystr) : result pystr :=
  (bin_data <- utf8_encode uri_part ;;
   let encoded_bin_data :=
     fold_left (fun acc b => acc ++ tilde_escape_byte b) bin_data [] in
   decode_ascii encoded_bin_data)%res.

(** ** Dictionaries in insertion order *)

Fixpoint dict_get {V} (d : list (pystr * V)) (k : pystr) : option V :=
  match d with
  | [] => None
  | (k', v) :: d' => if str_eqb k' k then Some v else dict_get d' k
  end.

(** [d[k] = v]: an existing key keeps its position. *)
Fixpoint dict_set {V} (d : list (pystr * V)) (k : pystr) (v : V)
  : list (pystr * V) :=
  match d with
  | [] => [(k, v)]
  | (k', v') :: d' =>
      if str_eqb k' k then (k', v) :: d' else (k', v') :: dict_set d' k v
  end.

Definition dict_keys {V} (d : list (pystr * V)) : list pystr := map fst d.

(** ** Operators of Python on [json] values *)

(** Truth value, as tested by [or] and [bool()]. *)
Definition truthy (v : json) : bool :=
  match v with
  | JNull => false
  | JBool b => b
  | JInt z => negb (z =? 0)
  | JFloat nonzero _ => nonzero
  | JStr s => match s with [] => false | _ => true end
  | JList l => match l with [] => false | _ => true end
  | JDict d => match d with [] => false | _ => true end
  end.

Fixpoint is_prefix (p s : pystr) : bool :=
  match p, s with
  | [], _ => true
  | _ :: _, [] => false
  | a :: p', b :: s' => (a =? b) && is_prefix p' s'
  end.

Fixpoint is_substring (p s : pystr) : bool :=
  is_prefix p s ||
  match s with
  | [] => false
  | _ :: s' => is_substring p s'
  end.

(** [key in v] for a string [key]. *)
Definition py_contains (key : pystr) (v : json) : result bool :=
  match v with
  | JDict d => Ok (match dict_get d key with Some _ => true | None => false end)
  | JList l =>
      Ok (existsb (fun e => match e with
                            | JStr s => str_eqb s key
                            | _ => false
                            end) l)
  | JStr s => Ok (is_substring key s)
  | _ => Raise TypeError
  end.

(** [v[key]] for a string [key]. *)
Definition py_getitem (v : json) (key : pystr) : result json :=
  match v with
  | JDict d =>
      match dict_get d key with
      | Some x => Ok x
      | None => Raise (KeyError key)
      end
  | _ => Raise TypeError
  end.

Definition is_none (v : json) : bool :=
  match v with JNull => true | _ => false end.

(** ** The state-and-exception monad *)

Definition M (S A : Type) : Type := S -> result A * S.

Definition ret {S A} (a : A) : M S A := fun s => (Ok a, s).

Definition raise {S A} (e : exn) : M S A := fun s => (Raise e, s).

Definition bind {S A B} (m : M S A) (f : A -> M S B) : M S B :=
  fun s =>
    match m s with
    | (Ok a, s') => f a s'
    | (Raise e, s') => (Raise e, s')
    end.

Definition lift {S A} (r : result A) : M S A := fun s => (r, s).

Declare Scope monad_scope.
Delimit Scope monad_scope with M.
Notation "x <- m ;; k" := (bind m (fun x => k))
  (at level 61, m at next level, right associativity) : monad_scope.
Notation "m ;;; k" := (bind m (fun _ => k))
  (at level 61, right associativity) : monad_scope.

(** A keyword argument with a default: [None] stands for an argument
    that the caller did not pass. *)
Definition kw {A} (default : A) (arg : option A) : A :=
  match arg with
  | Some a => a
  | None => default
  end.

(** ** Arguments of the command builders

    The builders apply [str()] and [bool()] to what the caller passes.
    [atom] is the universe of such arguments other than [None]; an
    argument that may be [None] has type [option atom]. *)

Inductive atom : Type :=
| ABool (b : bool)
| AInt (z : Z)
| AStr (s : pystr).

Definition py_str (a : atom) : pystr :=
  match a with
  | ABool true => lit "True"
  | ABool false => lit "False"
  | AInt z => str_of_int z
  | AStr s => s
  end.

(** [bool(x)], [x] possibly [None]. *)
Definition py_bool (x : option atom) : bool :=
  match x with
  | None => false
  | Some (ABool b) => b
  | Some (AInt z) => negb (z =? 0)
  | Some (AStr s) => match s with [] => false | _ => true end
  end.

(** What an attribute access can yield: a bound method, which can be
    called but not iterated over, or an iterable of sequences. *)
Inductive pyattr : Type :=
| BoundMethod (name : pystr)
| Iterable (elems : list (list atom)).

(** A dict-like argument: a [dict], or an instance of some class with
    the given attributes. *)
Inductive dict_like : Type :=
| Dict (kvs : list (atom * atom))
| Instance (attrs : list (pystr * pyattr)).

Definition dict_methods : list pystr :=
  map lit ["clear"; "copy"; "fromkeys"; "get"; "items"; "keys"; "pop";
           "popitem"; "setdefault"; "update"; "values"]%string.

(** [obj.name] *)
Definition getattr (obj : dict_like) (name : pystr) : result pyattr :=
  match obj with
  | Dict _ =>
      if existsb (str_eqb name) dict_methods then Ok (BoundMethod name)
      else Raise AttributeError
  | Instance attrs =>
      match dict_get attrs name with
      | Some a => Ok a
      | None => Raise AttributeError
      end
  end.

(** [iter(x)] run to exhaustion. *)
Definition py_iter (x : pyattr) : result (list (list atom)) :=
  match x with
  | BoundMethod _ => Raise TypeError
  | Iterable elems => Ok elems
  end.

(** The unpacking [key, value = elem]. *)
Definition unpack2 (elem : list atom) : result (atom * atom) :=
  match elem with
  | [key; value] => Ok (key, value)
  | _ => Raise ValueError
  end.

(** ** [_make_str], [_make_str_dict], [_make_str_list] *)

Definition _make_str (obj : option atom) : json :=
  match obj with
  | Some o => JStr (py_str o)
  | None => JNull
  end.

Fixpoint str_dict_comprehension (elems : list (list atom))
    (acc : list (pystr * json)) : result (list (pystr * json)) :=
  match elems with
  | [] => Ok acc
  | elem :: rest =>
      (kv <- unpack2 elem ;;
       str_dict_comprehension rest
         (dict_set acc (py_str (fst kv)) (JStr (py_str (snd kv)))))%res
  end.

Definition _make_str_dict (dict_like_obj : option dict_like) : result json :=
  match dict_like_obj with
  | Some o =>
      (items <- getattr o (lit "items") ;;
       elems <- py_iter items ;;
       d <- str_dict_comprehension elems [] ;;
       Ok (JDict d))%res
  | None => Ok JNull
  end.

Definition _make_str_list (list_like_obj : option (list atom)) : json :=
  match list_like_obj with
  | Some l => JList (map (fun elem => JStr (py_str elem)) l)
  | None => JNull
  end.

(** ** class [ArchiveConfigurationCommands(list)]

    [self] is the state of the monad: the list of the commands appended
    so far. *)

Module ArchiveConfigurationCommands.

Definition t := list json.

(** [self.append(command)] *)
Definition append (command : json) : M t unit :=
  fun self => (Ok tt, self ++ [command]).

Definition add_channel
    (channel_name control_system_type server_id : option atom)
    (decimation_levels : option (list atom))
    (decimation_level_to_retention_period : option dict_like)
    (enabled : option (option atom))
    (options : option dict_like) : M t unit :=
  let enabled := kw (Some (ABool true)) enabled in
  (command <- lift
     (retention <- _make_str_dict decimation_level_to_retention_period ;;
      opts <- _make_str_dict options ;;
      Ok (JDict
        [(lit "channelName", _make_str channel_name);
         (lit "commandType", JStr (lit "add_channel"));
         (lit "controlSystemType", _make_str control_system_type);
         (lit "decimationLevels", _make_str_list decimation_levels);
         (lit "decimationLevelToRetentionPeriod", retention);
         (lit "enabled", JBool (py_bool enabled));
         (lit "options", opts);
         (lit "serverId", _make_str server_id)]))%res ;;
   append command)%M.

Definition add_or_update_channel
    (channel_name control_system_type server_id : option atom)
    (decimation_levels : option (list atom))
    (decimation_level_to_retention_period : option dict_like)
    (enabled : option (option atom))
    (options : option dict_like) : M t unit :=
  let enabled := kw (Some (ABool true)) enabled in
  (command <- lift
     (retention <- _make_str_dict decimation_level_to_retention_period ;;
      opts <- _make_str_dict options ;;
      Ok (JDict
        [(lit "channelName", _make_str channel_name);
         (lit "commandType", JStr (lit "add_or_update_channel"));
         (lit "controlSystemType", _make_str control_system_type);
         (lit "decimationLevels", _make_str_list decimation_levels);
         (lit "decimationLevelToRetentionPeriod", retention);
         (lit "enabled", JBool (py_bool enabled));
         (lit "options", opts);
         (lit "serverId", _make_str server_id)]))%res ;;
   append command)%M.

Definition move_channel
    (channel_name new_server_id expected_old_server_id : option atom)
  : M t unit :=
  let command := JDict
    [(lit "channelName", _make_str channel_name);
     (lit "commandType", JStr (lit "move_channel"));
     (lit "expectedOldServerId", _make_str expected_old_server_id);
     (lit "newServerId", _make_str new_server_id)] in
  append command.

Definition refresh_channel (channel_name server_id : option atom)
  : M t unit :=
  let command := JDict
    [(lit "channelName", _make_str channel_name);
     (lit "commandType", JStr (lit "refresh_channel"));
     (lit "serverId", _make_str server_id)] in
  append command.

Definition remove_channel (channel_name expected_server_id : option atom)
  : M t unit :=
  let command := JDict
    [(lit "channelName", _make_str channel_name);
     (lit "commandType", JStr (lit "remove_channel"));
     (lit "expectedServerId", _make_str expected_server_id)] in
  append command.

Definition rename_channel
    (new_channel_name old_channel_name expected_server_id : option atom)
  : M t unit :=
  let command := JDict
    [(lit "commandType", JStr (lit "rename_channel"));
     (lit "expectedServerId", _make_str expected_server_id);
     (lit "newChannelName", _make_str new_channel_name);
     (lit "oldChannelName", _make_str old_channel_name)] in
  append command.

Definition update_channel
    (channel_name : option atom)
    (add_decimation_levels : option (list atom))
    (add_options : option dict_like)
    (decimation_levels : option (list atom))
    (decimation_level_to_retention_period : option dict_like)
    (enabled expected_control_system_type expected_server_id : option atom)
    (options : option dict_like)
    (remove_decimation_levels remove_options : option (list atom))
  : M t unit :=
  (command <- lift
     (add_opts <- _make_str_dict add_options ;;
      retention <- _make_str_dict decimation_level_to_retention_period ;;
      opts <- _make_str_dict options ;;
      Ok (JDict
        [(lit "addDecimationLevels", _make_str_list add_decimation_levels);
         (lit "addOptions", add_opts);
         (lit "channelName", _make_str channel_name);
         (lit "commandType", JStr (lit "update_channel"));
         (lit "decimationLevels", _make_str_list decimation_levels);
         (lit "decimationLevelToRetentionPeriod", retention);
         (lit "enabled",
          match enabled with
          | Some _ => JBool (py_bool enabled)
          | None => JNull
          end);
         (lit "expectedControlSystemType",
          _make_str expected_control_system_type);
         (lit "expectedServerId", _make_str expected_server_id);
         (lit "options", opts);
         (lit "removeDecimationLevels",
          _make_str_list remove_decimation_levels);
         (lit "removeOptions", _make_str_list remove_options)]))%res ;;
   append command)%M.

End ArchiveConfigurationCommands.

(** ** Library functions with a fixed meaning: [base64.b64encode],
    [str.encode('ascii')], [urllib.parse.quote(_, safe='')],
    [str.split] *)

Definition b64char (i : Z) : Z :=
  if i <? 26 then 65 + i
  else if i <? 52 then 97 + (i - 26)
  else if i <? 62 then 48 + (i - 52)
  else if i =? 62 then 43
  else 47.

Fixpoint b64encode (l : bytes) : bytes :=
  match l with
  | [] => []
  | [a] => [b64char (a / 4); b64char ((a mod 4) * 16); 61; 61]
  | [a; b] =>
      [b64char (a / 4); b64char ((a mod 4) * 16 + b / 16);
       b64char ((b mod 16) * 4); 61]
  | a :: b :: c :: rest =>
      [b64char (a / 4); b64char ((a mod 4) * 16 + b / 16);
       b64char ((b mod 16) * 4 + c / 64); b64char (c mod 64)]
      ++ b64encode rest
  end.

Definition encode_ascii (s : pystr) : result bytes :=
  if forallb is_ascii s then Ok s else Raise UnicodeEncodeError.

(** The digit of [n] in ['{:X}'.format(n)], [0 <= n < 16]. *)
Definition hex_digit (n : Z) : Z :=
  nth (Z.to_nat n) (lit "0123456789ABCDEF") 0.

(** Letters, digits and [_.-~] are never quoted ([~] since Python 3.7). *)
Definition always_safe (b : Z) : bool :=
  ((0x41 <=? b) && (b <=? 0x5a)) || ((0x61 <=? b) && (b <=? 0x7a))
  || ((0x30 <=? b) && (b <=? 0x39))
  || (b =? 0x5f) || (b =? 0x2e) || (b =? 0x2d) || (b =? 0x7e).

Definition quote_byte (b : Z) : pystr :=
  if always_safe b then [b]
  else [0x25; hex_digit (b / 16); hex_digit (b mod 16)].

(** [urllib.parse.quote(string, safe='')] *)
Definition quote (string : pystr) : result pystr :=
  (bs <- utf8_encode string ;; Ok (flat_map quote_byte bs))%res.

(** [s.split(sep)] for a separator of one character. *)
Fixpoint split (sep : Z) (s : pystr) : list pystr :=
  match s with
  | [] => [[]]
  | c :: s' =>
      if c =? sep then [] :: split sep s'
      else match split sep s' with
           | h :: t => (c :: h) :: t
           | [] => [[c]]
           end
  end.

(** [s.split(sep, 1)] for a separator of one character. *)
Fixpoint split1 (sep : Z) (s : pystr) : list pystr :=
  match s with
  | [] => [[]]
  | c :: s' =>
      if c =? sep then [[]; s']
      else match split1 sep s' with
           | h :: t => (c :: h) :: t
           | [] => [[c]]
           end
  end.

(** ** Requests, responses and I/O events *)

Record Request : Type := mkRequest {
  full_url : pystr;
  data : option bytes;
  headers : list (pystr * pystr);
  method : pystr
}.

(** A response object: [resp.code], [resp.headers.get] and the bytes
    that reading [resp] yields. *)
Record Response : Type := mkResponse {
  code : Z;
  headers_get : pystr -> option pystr;
  body : bytes
}.

(** What [urllib.request.urlopen] does with a request. *)
Inductive urlopen_outcome : Type :=
| Returns (resp : Response)
| RaisesHTTPError (err : Response)
| RaisesOther (e : exn).

Inductive event : Type :=
| Sent (req : Request)
| Wrote (path : pystr) (contents : bytes).

Definition trace := list event.

Module HTTPStatus.
Definition BAD_REQUEST : Z := 400.
Definition FORBIDDEN : Z := 403.
Definition INTERNAL_SERVER_ERROR : Z := 500.
Definition SERVICE_UNAVAILABLE : Z := 503.
End HTTPStatus.

(** ** Name resolution

    Rocq cannot refer to a name that is not bound, Python can: where a
    function body reads a name that is neither a parameter nor a local
    variable, the embedding resolves it as the interpreter does, in the
    local scope, then among the globals of the module, then in
    [builtins]. *)

Inductive binding : Type :=
| BStr (s : pystr)
| BObject.

Definition archive_client_globals : list pystr :=
  map lit ["gzip"; "HTTPStatus"; "io"; "json"; "urllib";
           "ArchiveClient"]%string.

(** The functions and constants of [builtins]; its exception classes
    and warnings are left out. *)
Definition builtins : list pystr :=
  map lit ["abs"; "aiter"; "all"; "anext"; "any"; "ascii"; "bin"; "bool";
           "breakpoint"; "bytearray"; "bytes"; "callable"; "chr";
           "classmethod"; "compile"; "complex"; "delattr"; "dict"; "dir";
           "divmod"; "enumerate"; "eval"; "exec"; "filter"; "float";
           "format"; "frozenset"; "getattr"; "globals"; "hasattr"; "hash";
           "help"; "hex"; "id"; "input"; "int"; "isinstance"; "issubclass";
           "iter"; "len"; "list"; "locals"; "map"; "max"; "memoryview";
           "min"; "next"; "object"; "oct"; "open"; "ord"; "pow"; "print";
           "property"; "range"; "repr"; "reversed"; "round"; "set";
           "setattr"; "slice"; "sorted"; "staticmethod"; "str"; "sum";
           "super"; "tuple"; "type"; "vars"; "zip"; "__import__";
           "Exception"; "True"; "False"; "None"]%string.

Definition load_name (locals : list (pystr * binding))
    (globals : list pystr) (name : pystr) : result binding :=
  match dict_get locals name with
  | Some b => Ok b
  | None =>
      if existsb (str_eqb name) globals || existsb (str_eqb name) builtins
      then Ok BObject
      else Raise (NameError name)
  end.

(** [urllib.parse.quote(x, safe='')] for an object that is not known to
    be a string. *)
Definition quote_object (x : binding) : result pystr :=
  match x with
  | BStr s => quote s
  | BObject => Raise TypeError
  end.

(** ** The two client classes

    Both classes carry textually identical copies of [_do_req],
    [_get_content_type_and_charset], [_get_resp_data], [_is_success_code]
    and [_req]; they are embedded once, over the attributes of [self]
    that [_req] reads. *)

Class ClientObject (C : Type) : Type := {
  _base_url : C -> pystr;
  _auth_header : C -> result pystr
}.

Record AdminClient : Type := mkAdminClient {
  admin_protocol_version : pystr;
  admin_base_url : pystr;
  _username : pystr;
  _password : pystr;
  admin_auth_header : pystr
}.

Record ArchiveClient : Type := mkArchiveClient {
  archive_protocol_version : pystr;
  archive_base_url : pystr
}.

#[export] Instance AdminClient_object : ClientObject AdminClient := {
  _base_url := admin_base_url;
  _auth_header := fun self => Ok (admin_auth_header self)
}.

(** An [ArchiveClient] has no attribute [_auth_header]. *)
#[export] Instance ArchiveClient_object : ClientObject ArchiveClient := {
  _base_url := archive_base_url;
  _auth_header := fun _ => Raise AttributeError
}.

Definition _generate_auth_header (username password : pystr)
  : result pystr :=
  (credentials <- utf8_encode (username ++ lit ":" ++ password) ;;
   auth_data <- decode_ascii (b64encode credentials) ;;
   Ok (lit "Basic " ++ auth_data))%res.

(** [AdminClient.__init__] *)
Definition AdminClient_init (server_name : pystr) (server_port : option Z)
    (username password : option pystr) : result AdminClient :=
  let server_port := kw 4812 server_port in
  let username := kw (lit "admin") username in
  let password := kw (lit "") password in
  let protocol_version := lit "1.0" in
  let base_url :=
    lit "http://" ++ server_name ++ lit ":" ++ str_of_int server_port
    ++ lit "/admin/api/" ++ protocol_version in
  (auth_header <- _generate_auth_header username password ;;
   Ok (mkAdminClient protocol_version base_url username password
         auth_header))%res.

(** [ArchiveClient.__init__] *)
Definition ArchiveClient_init (server_name : pystr) (server_port : option Z)
  : ArchiveClient :=
  let server_port := kw 9812 server_port in
  let protocol_version := lit "1.0" in
  mkArchiveClient protocol_version
    (lit "http://" ++ server_name ++ lit ":" ++ str_of_int server_port
     ++ lit "/archive-access/api/" ++ protocol_version).

Definition _is_success_code (status_code : Z) : bool :=
  (status_code >=? 200) && (status_code <? 300).

Definition _get_content_type_and_charset (resp : Response)
  : result (pystr * option pystr) :=
  match headers_get resp (lit "Content-Type") with
  | None => Raise AttributeError
  | Some content_type_header =>
      let content_type_header := split 0x3b content_type_header in
      let content_type := hd [] content_type_header in
      let extra_args :=
        fold_left
          (fun extra_args extra_arg =>
             match split1 0x3d extra_arg with
             | [name; value] => dict_set extra_args name (Some value)
             | extra_arg => dict_set extra_args (hd [] extra_arg) None
             end)
          (tl content_type_header) [] in
      let charset :=
        match dict_get extra_args (lit "charset") with
        | Some value => value
        | None => None
        end in
      Ok (content_type, charset)
  end.

(** The part of a payload that import and export exchange. *)
Inductive configuration_source : Type :=
| FromBytes (contents : bytes)
| FromPath (path : pystr).

Definition service_unavailable : exn :=
  Exception (JStr (lit "Service currently not available")).

Definition request_failed (status_code : Z) : exn :=
  Exception (JStr (lit "Request failed with status code "
                   ++ str_of_int status_code)).

Definition authentication_error : exn :=
  Exception (JStr (lit "Authentication error")).

Definition malformed_request_message : json :=
  JStr (lit "Malformed request. Check the input parameters").

(** The world outside the clients: the server behind [urlopen], the
    [json], [gzip], [codecs] and [base64] modules, and the file system. *)
Record World : Type := mkWorld {
  urlopen : Request -> urlopen_outcome;
  json_dumps : json -> pystr;
  json_loads : pystr -> result json;
  gunzip : bytes -> result bytes;
  decode_text : pystr -> bytes -> result pystr;
  b64decode : bytes -> result bytes;
  read_file : pystr -> result bytes;
  open_for_writing : pystr -> result unit
}.

Section Clients.

Variable world : World.

Definition _do_req (req : Request) : M trace Response :=
  fun t =>
    match urlopen world req with
    | Returns resp => (Ok resp, t ++ [Sent req])
    | RaisesHTTPError err => (Ok err, t ++ [Sent req])
    | RaisesOther e => (Raise e, t ++ [Sent req])
    end.

Definition _get_resp_data (resp : Response) : result json :=
  (ctcs <- _get_content_type_and_charset resp ;;
   let content_type := fst ctcs in
   let charset := snd ctcs in
   if negb (str_eqb content_type (lit "application/json")) then
     Raise (Exception (JStr
       (lit "Expected content-type application/json, but got "
        ++ content_type ++ lit ".")))
   else
     let charset := match charset with
                    | None => lit "utf_8"
                    | Some c => c
                    end in
     let content_encoding := headers_get resp (lit "Content-Encoding") in
     file_object <-
       match content_encoding with
       | Some enc => if str_eqb enc (lit "gzip") then gunzip world (body resp)
                     else Ok (body resp)
       | None => Ok (body resp)
       end ;;
     text <- decode_text world charset file_object ;;
     json_loads world text)%res.

Definition _req {C} `{ClientObject C} (self : C) (url : pystr)
    (data : option json) (headers : option (list (pystr * pystr)))
    (method : option pystr) (authenticate : option bool)
  : result Request :=
  let headers := kw [] headers in
  let method := kw (lit "GET") method in
  let authenticate := kw false authenticate in
  let req_url := _base_url self ++ url in
  (req_data <-
     match data with
     | Some d => (b <- utf8_encode (json_dumps world d) ;; Ok (Some b))
     | None => Ok None
     end ;;
   let req_headers :=
     [(lit "Accept", lit "application/json");
      (lit "Accept-Encoding", lit "gzip")] in
   let req_headers :=
     fold_left (fun acc kv => dict_set acc (fst kv) (snd kv))
       headers req_headers in
   req_headers <-
     (if authenticate then
        (auth <- _auth_header self ;;
         Ok (dict_set req_headers (lit "Authorization") auth))
      else Ok req_headers) ;;
   let req_headers :=
     match req_data with
     | Some _ => dict_set req_headers (lit "Content-Type")
                   (lit "application/json;charset=UTF-8")
     | None => req_headers
     end in
   Ok (mkRequest req_url req_data req_headers method))%res.

(** *** [AdminClient] *)

Definition export_server_configuration (self : AdminClient)
    (server_id : pystr) (configuration_file : option pystr)
  : M trace (option bytes) :=
  (req <- lift (_req self
            (lit "/channels/by-server/" ++ server_id ++ lit "/export")
            None None None None) ;;
   resp <- _do_req req ;;
   let status_code := code resp in
   resp_data <-
     (if status_code =? HTTPStatus.SERVICE_UNAVAILABLE then
        raise service_unavailable
      else if negb (_is_success_code (code resp)) then
        raise (request_failed (code resp))
      else lift (_get_resp_data resp)) ;;
   config_file_contents <- lift
     (field <- py_getitem resp_data (lit "configurationFile") ;;
      encoded <- match field with
                 | JStr s => encode_ascii s
                 | _ => Raise AttributeError
                 end ;;
      b64decode world encoded)%res ;;
   match configuration_file with
   | None => ret (Some config_file_contents)
   | Some path =>
       lift (open_for_writing world path) ;;;
       (fun t => (Ok None, t ++ [Wrote path config_file_contents]))
   end)%M.

Definition get_channel (self : AdminClient) (channel_name : pystr)
    (server_id : option pystr) : M trace json :=
  (channel_name <- lift (_encode_uri_part_custom channel_name) ;;
   let url :=
     match server_id with
     | None => lit "/channels/all/by-name/" ++ channel_name ++ lit "/"
     | Some server_id =>
         lit "/channels/by-server/" ++ server_id ++ lit "/by-name/"
         ++ channel_name ++ lit "/"
     end in
   req <- lift (_req self url None None None None) ;;
   resp <- _do_req req ;;
   if code resp =? HTTPStatus.SERVICE_UNAVAILABLE then
     raise service_unavailable
   else if negb (_is_success_code (code resp)) then
     raise (request_failed (code resp))
   else lift (_get_resp_data resp))%M.

Definition get_cluster_status (self : AdminClient) : M trace json :=
  (req <- lift (_req self (lit "/cluster-status/") None None None None) ;;
   resp <- _do_req req ;;
   if code resp =? HTTPStatus.SERVICE_UNAVAILABLE then
     raise service_unavailable
   else if negb (_is_success_code (code resp)) then
     raise (request_failed (code resp))
   else lift (_get_resp_data resp))%M.

Definition get_server_status (self : AdminClient) : M trace json :=
  (req <- lift (_req self (lit "/server-status/this-server/")
                  None None None None) ;;
   resp <- _do_req req ;;
   if negb (_is_success_code (code resp)) then
     raise (request_failed (code resp))
   else lift (_get_resp_data resp))%M.

(** The [try: ... except: error_message = None] block of the two POST
    operations. *)
Definition bad_request_error_message (resp : Response) : json :=
  match (resp_data <- _get_resp_data resp ;;
         present <- py_contains (lit "errorMessage") resp_data ;;
         if present then py_getitem resp_data (lit "errorMessage")
         else Ok JNull)%res with
  | Ok error_message => error_message
  | Raise _ => JNull
  end.

(** [raise Exception(error_message or 'Malformed request. ...')] *)
Definition bad_request (resp : Response) : exn :=
  let error_message := bad_request_error_message resp in
  Exception (if truthy error_message then error_message
             else malformed_request_message).

(** The check of the top-level [errorMessage] of a parsed body. *)
Definition check_error_message (resp_data : json) : result unit :=
  (present <- py_contains (lit "errorMessage") resp_data ;;
   if present then
     (error_message <- py_getitem resp_data (lit "errorMessage") ;;
      if negb (is_none error_message) then Raise (Exception error_message)
      else Ok tt)
   else Ok tt)%res.

Definition import_server_configuration (self : AdminClient)
    (server_id : pystr) (configuration_file : configuration_source)
    (add_channels remove_channels update_channels simulate : option bool)
  : M trace json :=
  let add_channels := kw true add_channels in
  let remove_channels := kw false remove_channels in
  let update_channels := kw true update_channels in
  let simulate := kw false simulate in
  let url := lit "/channels/by-server/" ++ server_id ++ lit "/import" in
  (config_data <- lift
     match configuration_file with
     | FromBytes contents => Ok (b64encode contents)
     | FromPath path =>
         (contents <- read_file world path ;; Ok (b64encode contents))%res
     end ;;
   configuration_text <- lift (decode_ascii config_data) ;;
   let req_data := JDict
     [(lit "addChannels", JBool add_channels);
      (lit "configurationFile", JStr configuration_text);
      (lit "removeChannels", JBool remove_channels);
      (lit "simulate", JBool simulate);
      (lit "updateChannels", JBool update_channels)] in
   req <- lift (_req self url (Some req_data) None (Some (lit "POST"))
                  (Some true)) ;;
   resp <- _do_req req ;;
   let status_code := code resp in
   (if status_code =? HTTPStatus.FORBIDDEN then
      raise authentication_error
    else if status_code =? HTTPStatus.BAD_REQUEST then
      raise (bad_request resp)
    else if status_code =? HTTPStatus.INTERNAL_SERVER_ERROR then
      ret tt
    else if status_code =? HTTPStatus.SERVICE_UNAVAILABLE then
      raise service_unavailable
    else if negb (_is_success_code (code resp)) then
      raise (request_failed (code resp))
    else ret tt) ;;;
   resp_data <- lift (_get_resp_data resp) ;;
   lift (check_error_message resp_data) ;;;
   ret resp_data)%M.

Definition list_all_channels (self : AdminClient) : M trace json :=
  (req <- lift (_req self (lit "/channels/all/") None None None None) ;;
   resp <- _do_req req ;;
   if code resp =? HTTPStatus.SERVICE_UNAVAILABLE then
     raise service_unavailable
   else if negb (_is_success_code (code resp)) then
     raise (request_failed (code resp))
   else
     resp_data <- lift (_get_resp_data resp) ;;
     lift (py_getitem resp_data (lit "channels")))%M.

Definition list_channels_for_server (self : AdminClient)
    (server_id : pystr) : M trace json :=
  (req <- lift (_req self
            (lit "/channels/by-server/" ++ server_id ++ lit "/")
            None None None None) ;;
   resp <- _do_req req ;;
   if code resp =? HTTPStatus.SERVICE_UNAVAILABLE then
     raise service_unavailable
   else if negb (_is_success_code (code resp)) then
     raise (request_failed (code resp))
   else
     resp_data <- lift (_get_resp_data resp) ;;
     lift (py_getitem resp_data (lit "channels")))%M.

Definition run_archive_configuration_commands (self : AdminClient)
    (commands : list json) : M trace json :=
  let req_data := JDict [(lit "commands", JList commands)] in
  (req <- lift (_req self (lit "/run-archive-configuration-commands")
                  (Some req_data) None (Some (lit "POST")) (Some true)) ;;
   resp <- _do_req req ;;
   let status_code := code resp in
   (if status_code =? HTTPStatus.FORBIDDEN then
      raise authentication_error
    else if status_code =? HTTPStatus.BAD_REQUEST then
      raise (bad_request resp)
    else if status_code =? HTTPStatus.INTERNAL_SERVER_ERROR then
      ret tt
    else if status_code =? HTTPStatus.SERVICE_UNAVAILABLE then
      raise service_unavailable
    else if negb (_is_success_code (code resp)) then
      raise (request_failed (code resp))
    else ret tt) ;;;
   resp_data <- lift (_get_resp_data resp) ;;
   lift (check_error_message resp_data) ;;;
   lift (py_getitem resp_data (lit "results")))%M.

(** *** [ArchiveClient] *)

Definition find_channels_by_pattern (self : ArchiveClient)
    (pattern : pystr) : M trace json :=
  (quoted <- lift (quote pattern) ;;
   let req_url := lit "/archive/1/channels-by-pattern/" ++ quoted in
   req <- lift (_req self req_url None None None None) ;;
   resp <- _do_req req ;;
   let status_code := code resp in
   if status_code =? HTTPStatus.SERVICE_UNAVAILABLE then
     raise service_unavailable
   else if negb (_is_success_code (code resp)) then
     raise (request_failed (code resp))
   else lift (_get_resp_data resp))%M.

(** The body reads the name [pattern], which is not a parameter of this
    method. *)
Definition find_channels_by_regexp (self : ArchiveClient)
    (regular_expression : pystr) : M trace json :=
  let locals :=
    [(lit "self", BObject);
     (lit "regular_expression", BStr regular_expression)] in
  (pattern <- lift (load_name locals archive_client_globals
                      (lit "pattern")) ;;
   quoted <- lift (quote_object pattern) ;;
   let req_url := lit "/archive/1/channels-by-regexp/" ++ quoted in
   req <- lift (_req self req_url None None None None) ;;
   resp <- _do_req req ;;
   let status_code := code resp in
   if status_code =? HTTPStatus.SERVICE_UNAVAILABLE then
     raise service_unavailable
   else if negb (_is_success_code (code resp)) then
     raise (request_failed (code resp))
   else lift (_get_resp_data resp))%M.

Definition get_samples (self : ArchiveClient) (channel_name : pystr)
    (start_time end_time : Z) (count : option Z) : M trace json :=
  let count := kw 0 count in
  (quoted <- lift (quote channel_name) ;;
   let req_url :=
     lit "/archive/1/samples/" ++ quoted ++ lit "?start="
     ++ str_of_int start_time ++ lit "&end=" ++ str_of_int end_time in
   let req_url :=
     if count >? 0 then req_url ++ lit "&count=" ++ str_of_int count
     else req_url in
   req <- lift (_req self req_url None None None None) ;;
   resp <- _do_req req ;;
   let status_code := code resp in
   if status_code =? HTTPStatus.SERVICE_UNAVAILABLE then
     raise service_unavailable
   else if negb (_is_success_code (code resp)) then
     raise (request_failed (code resp))
   else lift (_get_resp_data resp))%M.

End Clients.

(** * The specification's wording, for comparison with the code *)

(** The alphabet that the tilde-escape leaves alone. *)
Definition tilde_alphabet : pystr :=
  lit "-_0123456789ABCDEFGHIJKLMNOPQRSTUVWXYZabcdefghijklmnopqrstuvwxyz".

Definition in_tilde_alphabet (b : Z) : bool :=
  existsb (Z.eqb b) tilde_alphabet.

(** A byte of the alphabet passes through; any other byte becomes [~],
    the hexadecimal digit of its high nibble and that of its low nibble,
    the digits being [0-9] and [A-F]. *)
Definition spec_tilde_escape_byte (b : Z) : pystr :=
  if in_tilde_alphabet b then [b]
  else lit "~" ++ [hex_digit (b / 16); hex_digit (b mod 16)].

Definition spec_tilde_escape (bs : bytes) : pystr :=
  flat_map spec_tilde_escape_byte bs.

(** The string-to-string mapping that the documentation of
    [_make_str_dict] promises for a mapping with the given items. *)
Definition spec_str_dict (kvs : list (atom * atom)) : json :=
  JDict (fold_left
           (fun acc kv => dict_set acc (py_str (fst kv))
                            (JStr (py_str (snd kv))))
           kvs []).

(** The keys of a command mapping. *)
Definition command_keys (command : json) : list pystr :=
  match command with
  | JDict d => dict_keys d
  | _ => []
  end.

(** A builder call appends exactly one command with the given keys. *)
Definition appends_one (call : M ArchiveConfigurationCommands.t unit)
    (keys : list string) : Prop :=
  forall self, exists command,
    call self = (Ok tt, self ++ [command])
    /\ command_keys command = map lit keys.

(** A builder call raises and leaves the batch as it was. *)
Definition raises_unchanged (call : M ArchiveConfigurationCommands.t unit)
  : Prop :=
  forall self, exists e, call self = (Raise e, self).

(** ** The shape of a client operation

    Every operation of the two clients prepares one request, sends it
    and handles the response; [exchange] is that shape, and the two
    triages are the status checks that the operations share. *)

Definition response_of (o : urlopen_outcome) : option Response :=
  match o with
  | Returns resp => Some resp
  | RaisesHTTPError err => Some err
  | RaisesOther _ => None
  end.

Definition exchange {A} (world : World)
    (prepare : result Request) (handle : Response -> result A)
  : M trace A :=
  fun t =>
    match prepare with
    | Raise e => (Raise e, t)
    | Ok req =>
        match urlopen world req with
        | Returns resp => (handle resp, t ++ [Sent req])
        | RaisesHTTPError err => (handle err, t ++ [Sent req])
        | RaisesOther e => (Raise e, t ++ [Sent req])
        end
    end.

(** The status check of the GET operations other than
    [get_server_status]. *)
Definition get_triage (resp : Response) : result unit :=
  if code resp =? 503 then Raise service_unavailable
  else if negb (_is_success_code (code resp)) then
    Raise (request_failed (code resp))
  else Ok tt.

(** The status check of the two POST operations; [bad] is the failure
    raised for status 400. *)
Definition post_triage (bad : exn) (resp : Response) : result unit :=
  if code resp =? 403 then Raise authentication_error
  else if code resp =? 400 then Raise bad
  else if code resp =? 500 then Ok tt
  else if code resp =? 503 then Raise service_unavailable
  else if negb (_is_success_code (code resp)) then
    Raise (request_failed (code resp))
  else Ok tt.

(** The payload of an import: the argument itself when it is [bytes],
    otherwise the contents of the file at that path. *)
Definition configuration_payload (world : World)
    (configuration_file : configuration_source) : result bytes :=
  match configuration_file with
  | FromBytes contents => Ok contents
  | FromPath path => read_file world path
  end.

(** The body of an import request. *)
Definition import_request_body (payload : bytes)
    (add_channels remove_channels update_channels simulate : bool) : json :=
  JDict [(lit "addChannels", JBool add_channels);
         (lit "configurationFile", JStr (b64encode payload));
         (lit "removeChannels", JBool remove_channels);
         (lit "simulate", JBool simulate);
         (lit "updateChannels", JBool update_channels)].

(** The server-supplied message that a 400 response carries: the
    top-level [errorMessage] of a body that parses to an object, unless
    it is null, empty, zero or false. *)
Definition server_error_message (parsed : result json) : option json :=
  match parsed with
  | Ok (JDict d) =>
      match dict_get d (lit "errorMessage") with
      | Some x => if truthy x then Some x else None
      | None => None
      end
  | _ => None
  end.

(** The path and query that [get_samples] asks for. *)
Definition samples_path (quoted_channel : pystr) (start_time end_time : Z)
    (count : Z) : pystr :=
  lit "/archive/1/samples/" ++ quoted_channel
  ++ lit "?start=" ++ str_of_int start_time
  ++ lit "&end=" ++ str_of_int end_time
  ++ (if 0 <? count then lit "&count=" ++ str_of_int count else []).

(** The headers of a request without body and without authentication. *)
Definition plain_headers : list (pystr * pystr) :=
  [(lit "Accept", lit "application/json");
   (lit "Accept-Encoding", lit "gzip")].

Definition GET (url : pystr) : Request :=
  mkRequest url None plain_headers (lit "GET").

(** An authenticated request with a JSON body. *)
Definition POST (url : pystr) (auth : pystr) (body : bytes) : Request :=
  mkRequest url (Some body)
    [(lit "Accept", lit "application/json");
     (lit "Accept-Encoding", lit "gzip");
     (lit "Authorization", auth);
     (lit "Content-Type", lit "application/json;charset=UTF-8")]
    (lit "POST").

(** The two POST operations of [AdminClient]. *)
Definition post_operation (w : World) (call : M trace json) : Prop :=
  (exists self server_id configuration_file add_channels remove_channels
          update_channels simulate,
      call = import_server_configuration w self server_id
               configuration_file add_channels remove_channels
               update_channels simulate)
  \/ (exists self commands,
         call = run_archive_configuration_commands w self commands).

(** ** A concrete world, for the examples

    The server answers every request with the given status and a body
    declared as [application/json]; the body parses to the given
    value. *)
Definition json_headers (name : pystr) : option pystr :=
  if str_eqb name (lit "Content-Type") then Some (lit "application/json")
  else None.

Definition example_world (status : Z) (parsed : json) : World :=
  mkWorld
    (fun _ => if _is_success_code status
              then Returns (mkResponse status json_headers [])
              else RaisesHTTPError (mkResponse status json_headers []))
    (fun _ => lit "{}")
    (fun _ => Ok parsed)
    (fun b => Ok b)
    (fun _ b => Ok b)
    (fun b => Ok b)
    (fun _ => Raise (OtherError (lit "FileNotFoundError")))
    (fun _ => Ok tt).

Definition example_admin : AdminClient :=
  mkAdminClient (lit "1.0") (lit "http://localhost:4812/admin/api/1.0")
    (lit "admin") (lit "") (lit "Basic YWRtaW46").

Definition example_archive : ArchiveClient :=
  mkArchiveClient (lit "1.0")
    (lit "http://localhost:9812/archive-access/api/1.0").

(** ** Reading a tilde-escape back

    The server's side of [_encode_uri_part_custom]: [~] and two
    hexadecimal digits stand for one byte, any other character for
    itself. *)

Definition unhex (d : Z) : Z :=
  if d <? 0x3a then d - 0x30 else d - 0x37.

Fixpoint tilde_unescape (s : pystr) : bytes :=
  match s with
  | [] => []
  | c :: rest =>
      if c =? 0x7e then
        match rest with
        | h :: l :: rest' => (unhex h * 16 + unhex l) :: tilde_unescape rest'
        | _ => [c]
        end
      else c :: tilde_unescape rest
  end.

(** The characters that a tilde-escaped string is made of. *)
Definition tilde_output_char (c : Z) : bool :=
  in_tilde_alphabet c || (c =? 0x7e).

(** ** Families of operations *)

(** The operations that return the parsed body as it is. *)
Definition verbatim_operation (w : World) (call : M trace json) : Prop :=
  (exists self, call = get_cluster_status w self)
  \/ (exists self name server_id, call = get_channel w self name server_id)
  \/ (exists self pattern, call = find_channels_by_pattern w self pattern)
  \/ (exists self name start_time end_time count,
         call = get_samples w self name start_time end_time count).

(** The operations that return the [channels] entry of the body. *)
Definition list_operation (w : World) (call : M trace json) : Prop :=
  (exists self, call = list_all_channels w self)
  \/ (exists self server_id,
         call = list_channels_for_server w self server_id).

(** The read-only operations that return JSON. *)
Definition read_operation (w : World) (call : M trace json) : Prop :=
  verbatim_operation w call
  \/ list_operation w call
  \/ (exists self, call = get_server_status w self).

(** A world whose network is down: [urlopen] raises [e], which is not
    an [HTTPError]. *)
Definition unreachable_world (e : exn) : World :=
  mkWorld (fun _ => RaisesOther e) (fun _ => lit "{}")
    (fun _ => Ok JNull) (fun b => Ok b) (fun _ b => Ok b) (fun b => Ok b)
    (fun _ => Raise (OtherError (lit "FileNotFoundError")))
    (fun _ => Ok tt).

(** ** The wire format of a command *)

Definition is_str (v : json) : bool :=
  match v with JStr _ => true | _ => false end.

(** A field of a command as the server expects it: [enabled] is a
    boolean or null; any other field is null, a string, a list of
    strings or a mapping from strings to strings. *)
Definition wire_field (field : pystr * json) : bool :=
  if str_eqb (fst field) (lit "enabled") then
    match snd field with
    | JNull | JBool _ => true
    | _ => false
    end
  else
    match snd field with
    | JNull | JStr _ => true
    | JList l => forallb is_str l
    | JDict d => forallb (fun kv => is_str (snd kv)) d
    | _ => false
    end.

Definition wire_command (command : json) : bool :=
  match command with
  | JDict d => forallb wire_field d
  | _ => false
  end.

(** The seven builders, each with the name of its command type. *)
Definition builder_call (command_type : string)
    (call : M ArchiveConfigurationCommands.t unit) : Prop :=
  (command_type = "add_channel"%string
   /\ exists name cs sid levels retention enabled options,
        call = ArchiveConfigurationCommands.add_channel name cs sid levels
                 retention enabled options)
  \/ (command_type = "add_or_update_channel"%string
      /\ exists name cs sid levels retention enabled options,
           call = ArchiveConfigurationCommands.add_or_update_channel name
                    cs sid levels retention enabled options)
  \/ (command_type = "move_channel"%string
      /\ exists name new old,
           call = ArchiveConfigurationCommands.move_channel name new old)
  \/ (command_type = "refresh_channel"%string
      /\ exists name sid,
           call = ArchiveConfigurationCommands.refresh_channel name sid)
  \/ (command_type = "remove_channel"%string
      /\ exists name sid,
           call = ArchiveConfigurationCommands.remove_channel name sid)
  \/ (command_type = "rename_channel"%string
      /\ exists new old sid,
           call = ArchiveConfigurationCommands.rename_channel new old sid)
  \/ (command_type = "update_channel"%string
      /\ exists name add_levels add_options levels retention enabled ecs
                esid options rm_levels rm_options,
           call = ArchiveConfigurationCommands.update_channel name
                    add_levels add_options levels retention enabled ecs
                    esid options rm_levels rm_options).

(** The characters of a percent-encoded string. *)
Definition quoted_char (c : Z) : bool := always_safe c || (c =? 0x25).

(** ** Reading the body

    What [_get_resp_data] does once it has accepted the content type:
    the body, decompressed if the response declares
    [Content-Encoding: gzip], is decoded with [charset] and parsed. *)
Definition read_json (w : World) (resp : Response) (charset : pystr)
  : result json :=
  (file_object <-
     match headers_get resp (lit "Content-Encoding") with
     | Some enc => if str_eqb enc (lit "gzip") then gunzip w (body resp)
                   else Ok (body resp)
     | None => Ok (body resp)
     end ;;
   text <- decode_text w charset file_object ;;
   json_loads w text)%res.

(** The characters of [str(n)] for an integer [n]. *)
Definition decimal_char (c : Z) : bool :=
  ((0x30 <=? c) && (c <=? 0x39)) || (c =? 0x2d).

(** How often a character occurs in a string. *)
Definition occurrences (c : Z) (s : pystr) : nat := count_occ Z.eq_dec s c.

(** * Properties *)

(** ** Generic facts *)

Lemma str_eqb_eq (a b : pystr) : str_eqb a b = true <-> a = b.
Proof.
  revert b. induction a as [|x a IH]; intros [|y b]; simpl;
    try (split; congruence).
  rewrite andb_true_iff, Z.eqb_eq, IH. split.
  - now intros [-> ->].
  - intro H. now inversion H.
Qed.

Lemma Ok_inj {A} (a b : A) : Ok a = Ok b -> a = b.
Proof. congruence. Qed.

(** A property of bytes that holds of the 256 byte values holds of every
    byte. *)
Lemma byte_cases (P : Z -> bool) :
  forallb P (map Z.of_nat (seq 0 256)) = true ->
  forall b, is_byte b = true -> P b = true.
Proof.
  intros Hall b Hb.
  rewrite forallb_forall in Hall. apply Hall.
  unfold is_byte in Hb. apply andb_prop in Hb as [Hlo Hhi].
  apply Z.leb_le in Hlo. apply Z.ltb_lt in Hhi.
  replace b with (Z.of_nat (Z.to_nat b)) by lia.
  apply in_map, in_seq. lia.
Qed.

Lemma fold_left_app_flat_map {A B} (f : A -> list B) (l : list A)
    (acc : list B) :
  fold_left (fun acc a => acc ++ f a) l acc = acc ++ flat_map f l.
Proof.
  revert acc. induction l as [|a l IH]; intro acc; simpl.
  - now rewrite app_nil_r.
  - now rewrite IH, app_assoc.
Qed.

(** ** The UTF-8 encoder yields bytes *)

Lemma utf8_encode_char_bytes (c : Z) (bs : bytes) :
  utf8_encode_char c = Ok bs -> forallb is_byte bs = true.
Proof.
  unfold utf8_encode_char, is_byte.
  repeat match goal with
         | |- context [if ?b then _ else _] => destruct b eqn:?
         end; intro H; try discriminate H; apply Ok_inj in H; subst bs;
    cbn [forallb];
    repeat match goal with
           | H : (_ <? _) = _ |- _ =>
               first [apply Z.ltb_lt in H | apply Z.ltb_ge in H]
           | H : andb _ _ = false |- _ => clear H
           end;
    rewrite ?andb_true_r, ?andb_true_iff, ?Z.leb_le, ?Z.ltb_lt;
    repeat split;
    Z.to_euclidean_division_equations; lia.
Qed.

Lemma utf8_encode_bytes (s : pystr) (bs : bytes) :
  utf8_encode s = Ok bs -> forallb is_byte bs = true.
Proof.
  unfold utf8_encode. revert bs.
  induction s as [|c s IH]; simpl; intros bs H.
  - now inversion H.
  - destruct (utf8_encode_char c) as [b1|] eqn:Hc; simpl in H;
      [|discriminate].
    destruct (rmap utf8_encode_char s) as [chunks|] eqn:Hs; simpl in H;
      [|discriminate].
    inversion H; subst; clear H. simpl.
    rewrite forallb_app, (utf8_encode_char_bytes _ _ Hc). simpl.
    now apply IH.
Qed.

Lemma utf8_encode_ascii (s : pystr) :
  forallb is_ascii s = true ->
  utf8_encode s = Ok s.
Proof.
  unfold utf8_encode.
  induction s as [|c s IH]; simpl; intro H; [reflexivity|].
  apply andb_prop in H as [Hc Hs].
  apply andb_prop in Hc as [Hlo Hhi].
  apply Z.leb_le in Hlo. apply Z.ltb_lt in Hhi.
  specialize (IH Hs).
  destruct (rmap utf8_encode_char s) as [chunks|]; simpl in IH;
    [|discriminate].
  unfold utf8_encode_char.
  destruct (c <? 0) eqn:E0; [apply Z.ltb_lt in E0; lia|].
  destruct (c <? 128) eqn:E1; [|apply Z.ltb_ge in E1; lia].
  simpl. now inversion IH.
Qed.

(** ** The tilde-escape *)

Lemma tilde_escape_byte_spec (b : Z) :
  is_byte b = true ->
  tilde_escape_byte b = spec_tilde_escape_byte b
  /\ forallb is_ascii (tilde_escape_byte b) = true.
Proof.
  intro Hb.
  pose (P := fun b => str_eqb (tilde_escape_byte b)
                        (spec_tilde_escape_byte b)
                      && forallb is_ascii (tilde_escape_byte b)).
  assert (HP : P b = true) by (apply byte_cases; [vm_compute|]; trivial).
  unfold P in HP. apply andb_prop in HP as [H1 H2].
  apply str_eqb_eq in H1. now split.
Qed.

Lemma tilde_escape_bytes_spec (bs : bytes) :
  forallb is_byte bs = true ->
  flat_map tilde_escape_byte bs = spec_tilde_escape bs
  /\ forallb is_ascii (flat_map tilde_escape_byte bs) = true.
Proof.
  unfold spec_tilde_escape.
  induction bs as [|b bs IH]; simpl; intro H; [now split|].
  apply andb_prop in H as [Hb Hbs].
  destruct (tilde_escape_byte_spec b Hb) as [E A].
  destruct (IH Hbs) as [E' A'].
  rewrite forallb_app, A, A', E, E'. now split.
Qed.

Lemma spec_tilde_escape_alphabet (s : pystr) :
  forallb in_tilde_alphabet s = true -> spec_tilde_escape s = s.
Proof.
  unfold spec_tilde_escape.
  induction s as [|b s IH]; simpl; intro H; [reflexivity|].
  apply andb_prop in H as [Hb Hs].
  unfold spec_tilde_escape_byte at 1. rewrite Hb. simpl.
  now rewrite IH.
Qed.

Lemma tilde_alphabet_ascii (s : pystr) :
  forallb in_tilde_alphabet s = true -> forallb is_ascii s = true.
Proof.
  induction s as [|b s IH]; simpl; intro H; [reflexivity|].
  apply andb_prop in H as [Hb Hs]. rewrite (IH Hs), andb_true_r.
  unfold in_tilde_alphabet in Hb. apply existsb_exists in Hb.
  destruct Hb as [x [Hin Hx]]. apply Z.eqb_eq in Hx. subst x.
  assert (Hall : forallb is_ascii tilde_alphabet = true)
    by (vm_compute; reflexivity).
  rewrite forallb_forall in Hall. now apply Hall.
Qed.

Lemma encode_uri_part_custom_eq (s : pystr) :
  _encode_uri_part_custom s
  = (bs <- utf8_encode s ;; Ok (spec_tilde_escape bs))%res.
Proof.
  unfold _encode_uri_part_custom.
  destruct (utf8_encode s) as [bs|e] eqn:Hs; simpl; [|reflexivity].
  rewrite fold_left_app_flat_map. simpl.
  destruct (tilde_escape_bytes_spec bs (utf8_encode_bytes _ _ Hs))
    as [E A].
  unfold decode_ascii. now rewrite A, E.
Qed.

(** C1. [_encode_uri_part_custom] encodes its argument as UTF-8 and
    then maps every byte of the alphabet [A-Za-z0-9_-] to itself and
    every other byte to [~] followed by the two hexadecimal digits
    ([0-9], [A-F]) of its high and low nibble; a string that has no
    UTF-8 encoding (a lone surrogate) raises at the encoding step. A
    space becomes [~20], the letter e-acute (U+00E9, bytes C3 A9)
    becomes [~C3~A9], and a string over the alphabet is returned
    unchanged. *)
Theorem encode_uri_part_custom_tilde_escape :
  (forall s : pystr,
      _encode_uri_part_custom s
      = (bs <- utf8_encode s ;; Ok (spec_tilde_escape bs))%res)
  /\ _encode_uri_part_custom (lit " ") = Ok (lit "~20")
  /\ utf8_encode [0xE9] = Ok [0xC3; 0xA9]
  /\ _encode_uri_part_custom [0xE9] = Ok (lit "~C3~A9")
  /\ (forall s : pystr,
         forallb in_tilde_alphabet s = true ->
         _encode_uri_part_custom s = Ok s).
Proof.
  split; [exact encode_uri_part_custom_eq|].
  repeat split; try (vm_compute; reflexivity).
  intros s Hs. rewrite encode_uri_part_custom_eq.
  rewrite (utf8_encode_ascii s (tilde_alphabet_ascii s Hs)). simpl.
  now rewrite spec_tilde_escape_alphabet.
Qed.

Lemma encode_uri_part_custom_tilde_escape_witness :
  forallb in_tilde_alphabet (lit "PV-01_temp") = true
  /\ _encode_uri_part_custom (lit "PV-01_temp") = Ok (lit "PV-01_temp").
Proof.
  split; [reflexivity|].
  apply (proj2 (proj2 (proj2 (proj2
           encode_uri_part_custom_tilde_escape)))).
  reflexivity.
Defined.

(** ** The command builders *)

Import ArchiveConfigurationCommands.

(** [_make_str_dict] does what its documentation says for an object
    whose attribute [items] is itself an iterable of pairs ... *)
Lemma str_dict_comprehension_pairs (kvs : list (atom * atom))
    (acc : list (pystr * json)) :
  str_dict_comprehension (map (fun kv => [fst kv; snd kv]) kvs) acc
  = Ok (fold_left
          (fun acc kv => dict_set acc (py_str (fst kv))
                           (JStr (py_str (snd kv))))
          kvs acc).
Proof.
  revert acc. induction kvs as [|kv kvs IH]; intro acc; simpl.
  - reflexivity.
  - apply IH.
Qed.

Lemma make_str_dict_items_attribute (kvs : list (atom * atom)) :
  _make_str_dict
    (Some (Instance
       [(lit "items", Iterable (map (fun kv => [fst kv; snd kv]) kvs))]))
  = Ok (spec_str_dict kvs).
Proof.
  unfold _make_str_dict, spec_str_dict, getattr.
  change (dict_get _ (lit "items"))
    with (Some (Iterable (map (fun kv => [fst kv; snd kv]) kvs))).
  simpl. now rewrite str_dict_comprehension_pairs.
Qed.

(** ... but the attribute [items] of a [dict] is a bound method, which
    the comprehension cannot iterate over. *)
Lemma make_str_dict_dict (kvs : list (atom * atom)) :
  _make_str_dict (Some (Dict kvs)) = Raise TypeError.
Proof. reflexivity. Qed.

Lemma make_str_dict_none : _make_str_dict None = Ok JNull.
Proof. reflexivity. Qed.

(** C2 (the code departs from the claim). With a [dict] as [options] or
    as [decimation_level_to_retention_period], [_make_str_dict] raises
    [TypeError] instead of returning the dict of strings, and
    [add_channel], [add_or_update_channel] and [update_channel] raise
    with it and append nothing. [None] does become null. *)
Theorem make_str_dict_raises_on_dict :
  (forall kvs, _make_str_dict (Some (Dict kvs)) = Raise TypeError
               /\ _make_str_dict (Some (Dict kvs))
                  <> Ok (spec_str_dict kvs))
  /\ _make_str_dict None = Ok JNull
  /\ (forall name cs sid levels enabled kvs self,
         add_channel name cs sid levels None enabled (Some (Dict kvs)) self
         = (Raise TypeError, self)
         /\ add_or_update_channel name cs sid levels None enabled
              (Some (Dict kvs)) self
            = (Raise TypeError, self))
  /\ (forall name cs sid levels enabled options kvs self,
         add_channel name cs sid levels (Some (Dict kvs)) enabled options
           self
         = (Raise TypeError, self)
         /\ add_or_update_channel name cs sid levels (Some (Dict kvs))
              enabled options self
            = (Raise TypeError, self))
  /\ (forall name add_levels levels enabled ecs esid rm_levels rm_options
             kvs self,
         update_channel name add_levels None levels None enabled ecs esid
           (Some (Dict kvs)) rm_levels rm_options self
         = (Raise TypeError, self))
  /\ add_channel (Some (AStr (lit "ch1"))) (Some (AStr (lit "channel_access")))
       (Some (AStr (lit "s1"))) None None None
       (Some (Dict [(AStr (lit "monitorMask"), AInt 1)])) []
     = (Raise TypeError, []).
Proof.
  split; [intro kvs; split; [reflexivity|discriminate]|].
  split; [reflexivity|].
  repeat split; reflexivity.
Qed.

(** The four builders without mapping arguments always append one
    command; an argument left at [None] is stored as null. *)
Lemma simple_builders_append_one :
  (forall name new old,
      appends_one (move_channel name new old)
        ["channelName"; "commandType"; "expectedOldServerId";
         "newServerId"]%string)
  /\ (forall name sid,
         appends_one (refresh_channel name sid)
           ["channelName"; "commandType"; "serverId"]%string)
  /\ (forall name sid,
         appends_one (remove_channel name sid)
           ["channelName"; "commandType"; "expectedServerId"]%string)
  /\ (forall new old sid,
         appends_one (rename_channel new old sid)
           ["commandType"; "expectedServerId"; "newChannelName";
            "oldChannelName"]%string).
Proof.
  repeat split; intros; intro self; eexists; (split; reflexivity).
Qed.

Lemma make_str_dict_cases (o : option dict_like) :
  (exists v, _make_str_dict o = Ok v) \/ (exists e, _make_str_dict o = Raise e).
Proof.
  destruct (_make_str_dict o); [left|right]; eauto.
Qed.

(** The three builders with mapping arguments append one command when
    the mappings can be converted, and otherwise raise and append
    nothing. *)
Lemma mapping_builders_append_one_or_raise :
  (forall name cs sid levels retention enabled options,
      appends_one (add_channel name cs sid levels retention enabled options)
        ["channelName"; "commandType"; "controlSystemType";
         "decimationLevels"; "decimationLevelToRetentionPeriod";
         "enabled"; "options"; "serverId"]%string
      \/ raises_unchanged
           (add_channel name cs sid levels retention enabled options))
  /\ (forall name cs sid levels retention enabled options,
         appends_one
           (add_or_update_channel name cs sid levels retention enabled
              options)
           ["channelName"; "commandType"; "controlSystemType";
            "decimationLevels"; "decimationLevelToRetentionPeriod";
            "enabled"; "options"; "serverId"]%string
         \/ raises_unchanged
              (add_or_update_channel name cs sid levels retention enabled
                 options))
  /\ (forall name add_levels add_options levels retention enabled ecs esid
             options rm_levels rm_options,
         appends_one
           (update_channel name add_levels add_options levels retention
              enabled ecs esid options rm_levels rm_options)
           ["addDecimationLevels"; "addOptions"; "channelName";
            "commandType"; "decimationLevels";
            "decimationLevelToRetentionPeriod"; "enabled";
            "expectedControlSystemType"; "expectedServerId"; "options";
            "removeDecimationLevels"; "removeOptions"]%string
         \/ raises_unchanged
              (update_channel name add_levels add_options levels retention
                 enabled ecs esid options rm_levels rm_options)).
Proof.
  split; [|split]; intros.
  - unfold add_channel, bind, lift.
    destruct (make_str_dict_cases retention) as [[v1 ->]|[e1 ->]];
      [|right; intro self; now exists e1].
    destruct (make_str_dict_cases options) as [[v2 ->]|[e2 ->]];
      [|right; intro self; now exists e2].
    left; intro self; eexists; split; reflexivity.
  - unfold add_or_update_channel, bind, lift.
    destruct (make_str_dict_cases retention) as [[v1 ->]|[e1 ->]];
      [|right; intro self; now exists e1].
    destruct (make_str_dict_cases options) as [[v2 ->]|[e2 ->]];
      [|right; intro self; now exists e2].
    left; intro self; eexists; split; reflexivity.
  - unfold update_channel, bind, lift.
    destruct (make_str_dict_cases add_options) as [[v0 ->]|[e0 ->]];
      [|right; intro self; now exists e0].
    destruct (make_str_dict_cases retention) as [[v1 ->]|[e1 ->]];
      [|right; intro self; now exists e1].
    destruct (make_str_dict_cases options) as [[v2 ->]|[e2 ->]];
      [|right; intro self; now exists e2].
    left; intro self; eexists; split; reflexivity.
Qed.

(** C9 (the code departs from the claim). A builder call does not
    always append a command: [add_channel] with a [dict] of options
    raises [TypeError], and the batch keeps its length and its
    entries. *)
Theorem add_channel_dict_options_appends_nothing :
  let earlier :=
    JDict [(lit "channelName", JStr (lit "ch0"));
           (lit "commandType", JStr (lit "refresh_channel"));
           (lit "serverId", JStr (lit "s1"))] in
  let call :=
    add_channel (Some (AStr (lit "ch1")))
      (Some (AStr (lit "channel_access"))) (Some (AStr (lit "s1")))
      (Some [AInt 0; AInt 30]) None (Some (Some (ABool true)))
      (Some (Dict [(AStr (lit "monitorMask"), AStr (lit "value"))])) in
  refresh_channel (Some (AStr (lit "ch0"))) (Some (AStr (lit "s1"))) []
  = (Ok tt, [earlier])
  /\ call [earlier] = (Raise TypeError, [earlier])
  /\ List.length (snd (call [earlier])) = List.length [earlier]
  /\ ~ appends_one call
         ["channelName"; "commandType"; "controlSystemType";
          "decimationLevels"; "decimationLevelToRetentionPeriod";
          "enabled"; "options"; "serverId"]%string.
Proof.
  cbv zeta. repeat split; try reflexivity.
  intro H. destruct (H []) as [command [Hcall _]].
  discriminate Hcall.
Qed.

(** C10. When the mapping arguments can be converted, [add_channel] and
    [add_or_update_channel] called with [enabled=None] append a command
    whose field [enabled] is the boolean false, whereas [update_channel]
    called with [enabled=None] appends a command whose field [enabled]
    is null. *)
Theorem enabled_none_false_unless_update
    (name cs sid : option atom) (levels : option (list atom))
    (retention options : option dict_like) (r o : json)
    (self : ArchiveConfigurationCommands.t) :
  _make_str_dict retention = Ok r ->
  _make_str_dict options = Ok o ->
  (exists command,
      add_channel name cs sid levels retention (Some None) options self
      = (Ok tt, self ++ [command])
      /\ py_getitem command (lit "enabled") = Ok (JBool false))
  /\ (exists command,
         add_or_update_channel name cs sid levels retention (Some None)
           options self
         = (Ok tt, self ++ [command])
         /\ py_getitem command (lit "enabled") = Ok (JBool false))
  /\ (forall add_levels add_options ecs esid rm_levels rm_options a,
         _make_str_dict add_options = Ok a ->
         exists command,
           update_channel name add_levels add_options levels retention
             None ecs esid options rm_levels rm_options self
           = (Ok tt, self ++ [command])
           /\ py_getitem command (lit "enabled") = Ok JNull).
Proof.
  intros Hr Ho. split; [|split].
  - unfold add_channel, bind, lift. rewrite Hr, Ho.
    eexists; split; reflexivity.
  - unfold add_or_update_channel, bind, lift. rewrite Hr, Ho.
    eexists; split; reflexivity.
  - intros add_levels add_options ecs esid rm_levels rm_options a Ha.
    unfold update_channel, bind, lift. rewrite Ha, Hr, Ho.
    eexists; split; reflexivity.
Qed.

Lemma enabled_none_false_unless_update_witness :
  exists command,
    add_channel (Some (AStr (lit "ch1"))) (Some (AStr (lit "channel_access")))
      (Some (AStr (lit "s1"))) None None (Some None) None []
    = (Ok tt, [] ++ [command])
    /\ py_getitem command (lit "enabled") = Ok (JBool false).
Proof.
  exact (proj1 (enabled_none_false_unless_update
                  (Some (AStr (lit "ch1")))
                  (Some (AStr (lit "channel_access")))
                  (Some (AStr (lit "s1"))) None None None JNull JNull []
                  eq_refl eq_refl)).
Defined.

(** ** The shape of the client operations *)

Lemma trace_not_extended (t : trace) (e : event) : t <> t ++ [e].
Proof.
  intro H. rewrite <- (app_nil_r t) in H at 1.
  apply app_inv_head in H. discriminate H.
Qed.

Lemma exchange_sent {A} (w : World) (prepare : result Request)
    (handle : Response -> result A) (t : trace) (req : Request) :
  snd (exchange w prepare handle t) = t ++ [Sent req] ->
  prepare = Ok req.
Proof.
  unfold exchange. destruct prepare as [r|e]; simpl.
  - intro H.
    assert (H' : t ++ [Sent r] = t ++ [Sent req])
      by (destruct (urlopen w r); exact H).
    apply app_inv_head in H'. congruence.
  - intro H. now apply trace_not_extended in H.
Qed.

Lemma exchange_response {A} (w : World) (prepare : result Request)
    (handle : Response -> result A) (t : trace) (req : Request)
    (resp : Response) :
  prepare = Ok req ->
  response_of (urlopen w req) = Some resp ->
  exchange w prepare handle t = (handle resp, t ++ [Sent req]).
Proof.
  intros -> H. unfold exchange.
  destruct (urlopen w req); simpl in H; congruence.
Qed.

(** The outcome of an exchange whose trace shows the request [req],
    answered with [resp]. *)
Lemma exchange_outcome {A} (w : World) (prepare : result Request)
    (handle : Response -> result A) (t : trace) (req : Request)
    (resp : Response) :
  snd (exchange w prepare handle t) = t ++ [Sent req] ->
  response_of (urlopen w req) = Some resp ->
  fst (exchange w prepare handle t) = handle resp.
Proof.
  intros Hsent Hresp.
  now rewrite (exchange_response w prepare handle t req resp
                 (exchange_sent _ _ _ _ _ Hsent) Hresp).
Qed.

Ltac unfold_status :=
  unfold HTTPStatus.SERVICE_UNAVAILABLE, HTTPStatus.FORBIDDEN,
    HTTPStatus.BAD_REQUEST, HTTPStatus.INTERNAL_SERVER_ERROR in *.

(** What [_req] builds for a GET and for an authenticated POST. *)
Lemma req_get {C} `{ClientObject C} (w : World) (self : C) (url : pystr) :
  _req w self url None None None None = Ok (GET (_base_url self ++ url)).
Proof. reflexivity. Qed.

Lemma req_post (w : World) (self : AdminClient) (url : pystr)
    (d : json) :
  _req w self url (Some d) None (Some (lit "POST")) (Some true)
  = (body <- utf8_encode (json_dumps w d) ;;
     Ok (POST (_base_url self ++ url) (admin_auth_header self) body))%res.
Proof.
  unfold _req. cbn [kw]. destruct (utf8_encode (json_dumps w d));
    reflexivity.
Qed.

(** Case analysis on the response and on each status test. *)
Ltac shape :=
  unfold exchange, bind, lift, raise, ret, _do_req, get_triage,
    post_triage; unfold_status;
  repeat (cbv beta; cbn [rbind]; rewrite ?req_get, ?req_post;
          match goal with
          | |- context [urlopen ?w ?r] => destruct (urlopen w r)
          | |- context [if ?c then _ else _] => destruct c
          | |- context [match ?x with Ok _ => _ | Raise _ => _ end] =>
              destruct x
          end);
  try reflexivity.

Lemma get_cluster_status_shape (w : World) (self : AdminClient)
    (t : trace) :
  get_cluster_status w self t
  = exchange w (Ok (GET (_base_url self ++ lit "/cluster-status/")))
      (fun resp => _ <- get_triage resp ;; _get_resp_data w resp)%res t.
Proof. unfold get_cluster_status. shape. Qed.

Lemma get_server_status_shape (w : World) (self : AdminClient)
    (t : trace) :
  get_server_status w self t
  = exchange w
      (Ok (GET (_base_url self ++ lit "/server-status/this-server/")))
      (fun resp =>
         if negb (_is_success_code (code resp)) then
           Raise (request_failed (code resp))
         else _get_resp_data w resp) t.
Proof. unfold get_server_status. shape. Qed.

Lemma get_channel_shape (w : World) (self : AdminClient)
    (channel_name : pystr) (server_id : option pystr) (t : trace) :
  get_channel w self channel_name server_id t
  = exchange w
      (escaped <- _encode_uri_part_custom channel_name ;;
       Ok (GET (_base_url self ++
                match server_id with
                | None => lit "/channels/all/by-name/" ++ escaped ++ lit "/"
                | Some server_id =>
                    lit "/channels/by-server/" ++ server_id
                    ++ lit "/by-name/" ++ escaped ++ lit "/"
                end)))%res
      (fun resp => _ <- get_triage resp ;; _get_resp_data w resp)%res t.
Proof. unfold get_channel. destruct server_id; shape. Qed.

Lemma list_all_channels_shape (w : World) (self : AdminClient)
    (t : trace) :
  list_all_channels w self t
  = exchange w (Ok (GET (_base_url self ++ lit "/channels/all/")))
      (fun resp =>
         _ <- get_triage resp ;;
         resp_data <- _get_resp_data w resp ;;
         py_getitem resp_data (lit "channels"))%res t.
Proof. unfold list_all_channels. shape. Qed.

Lemma list_channels_for_server_shape (w : World) (self : AdminClient)
    (server_id : pystr) (t : trace) :
  list_channels_for_server w self server_id t
  = exchange w
      (Ok (GET (_base_url self ++
                (lit "/channels/by-server/" ++ server_id ++ lit "/"))))
      (fun resp =>
         _ <- get_triage resp ;;
         resp_data <- _get_resp_data w resp ;;
         py_getitem resp_data (lit "channels"))%res t.
Proof. unfold list_channels_for_server. shape. Qed.

Lemma find_channels_by_pattern_shape (w : World) (self : ArchiveClient)
    (pattern : pystr) (t : trace) :
  find_channels_by_pattern w self pattern t
  = exchange w
      (quoted <- quote pattern ;;
       Ok (GET (_base_url self ++
                (lit "/archive/1/channels-by-pattern/" ++ quoted))))%res
      (fun resp => _ <- get_triage resp ;; _get_resp_data w resp)%res t.
Proof. unfold find_channels_by_pattern. shape. Qed.

Lemma import_server_configuration_shape (w : World) (self : AdminClient)
    (server_id : pystr) (configuration_file : configuration_source)
    (add_channels remove_channels update_channels simulate : option bool)
    (t : trace) :
  import_server_configuration w self server_id configuration_file
    add_channels remove_channels update_channels simulate t
  = exchange w
      (payload <- configuration_payload w configuration_file ;;
       configuration_text <- decode_ascii (b64encode payload) ;;
       body <- utf8_encode (json_dumps w (JDict
         [(lit "addChannels", JBool (kw true add_channels));
          (lit "configurationFile", JStr configuration_text);
          (lit "removeChannels", JBool (kw false remove_channels));
          (lit "simulate", JBool (kw false simulate));
          (lit "updateChannels", JBool (kw true update_channels))])) ;;
       Ok (POST (_base_url self ++
                 (lit "/channels/by-server/" ++ server_id ++ lit "/import"))
             (admin_auth_header self) body))%res
      (fun resp =>
         _ <- post_triage (bad_request w resp) resp ;;
         resp_data <- _get_resp_data w resp ;;
         _ <- check_error_message resp_data ;;
         Ok resp_data)%res t.
Proof.
  unfold import_server_configuration, configuration_payload.
  destruct configuration_file as [contents|path];
    [|destruct (read_file w path)]; shape.
Qed.

Lemma run_archive_configuration_commands_shape (w : World)
    (self : AdminClient) (commands : list json) (t : trace) :
  run_archive_configuration_commands w self commands t
  = exchange w
      (body <- utf8_encode (json_dumps w
                 (JDict [(lit "commands", JList commands)])) ;;
       Ok (POST (_base_url self
                 ++ lit "/run-archive-configuration-commands")
             (admin_auth_header self) body))%res
      (fun resp =>
         _ <- post_triage (bad_request w resp) resp ;;
         resp_data <- _get_resp_data w resp ;;
         _ <- check_error_message resp_data ;;
         py_getitem resp_data (lit "results"))%res t.
Proof. unfold run_archive_configuration_commands. shape. Qed.

Lemma get_samples_shape (w : World) (self : ArchiveClient)
    (channel_name : pystr) (start_time end_time : Z) (count : option Z)
    (t : trace) :
  get_samples w self channel_name start_time end_time count t
  = exchange w
      (quoted <- quote channel_name ;;
       Ok (GET (_base_url self ++
                samples_path quoted start_time end_time (kw 0 count))))%res
      (fun resp => _ <- get_triage resp ;; _get_resp_data w resp)%res t.
Proof.
  unfold get_samples, samples_path, bind, lift.
  rewrite Z.gtb_ltb.
  destruct (quote channel_name) as [quoted|e]; [|reflexivity].
  destruct (0 <? kw 0 count);
    rewrite <- ?app_assoc, ?app_nil_r; shape.
Qed.

Lemma example_clients :
  AdminClient_init (lit "localhost") None None None = Ok example_admin
  /\ ArchiveClient_init (lit "localhost") None = example_archive.
Proof. split; vm_compute; reflexivity. Qed.

Lemma exchange_trace {A} (w : World) (prepare : result Request)
    (handle : Response -> result A) (t : trace) (req : Request) :
  prepare = Ok req ->
  snd (exchange w prepare handle t) = t ++ [Sent req].
Proof.
  intros ->. unfold exchange. now destruct (urlopen w req).
Qed.

(** ** Reading the [Content-Type] header *)

Example content_type_examples :
  let resp (h : string) := mkResponse 200
                  (fun name => if str_eqb name (lit "Content-Type")
                               then Some (lit h) else None) [] in
  _get_content_type_and_charset (resp "application/json"%string)
  = Ok (lit "application/json", None)
  /\ _get_content_type_and_charset (resp "application/json;charset=UTF-16"%string)
     = Ok (lit "application/json", Some (lit "UTF-16"))
  /\ _get_content_type_and_charset
       (resp "application/json;q;charset=a;charset=b=c"%string)
     = Ok (lit "application/json", Some (lit "b=c"))
  /\ _get_content_type_and_charset (resp "application/json; charset=utf-8"%string)
     = Ok (lit "application/json", None)
  /\ _get_content_type_and_charset (mkResponse 200 (fun _ => None) [])
     = Raise AttributeError.
Proof. repeat split; vm_compute; reflexivity. Qed.

(** ** [find_channels_by_regexp] *)

(** C3 (the code departs from the claim). Whatever the regular
    expression, [find_channels_by_regexp] raises [NameError] for the
    name [pattern] before it builds a request: nothing is sent and
    nothing is returned. *)
Theorem find_channels_by_regexp_name_error :
  (forall (w : World) (self : ArchiveClient) (regular_expression : pystr)
          (t : trace),
      find_channels_by_regexp w self regular_expression t
      = (Raise (NameError (lit "pattern")), t))
  /\ find_channels_by_regexp (example_world 200 (JList [JStr (lit "ch1")]))
       example_archive (lit "ch.*") []
     = (Raise (NameError (lit "pattern")), [])
  /\ find_channels_by_pattern (example_world 200 (JList [JStr (lit "ch1")]))
       example_archive (lit "ch*") []
     = (Ok (JList [JStr (lit "ch1")]),
        [Sent (GET (lit "http://localhost:9812/archive-access/api/1.0/archive/1/channels-by-pattern/ch%2A"))]).
Proof.
  split; [|split].
  - intros. reflexivity.
  - reflexivity.
  - vm_compute. reflexivity.
Qed.

(** ** Status 503 *)

Lemma get_triage_503 (resp : Response) :
  code resp = 503 -> get_triage resp = Raise service_unavailable.
Proof. unfold get_triage. now intros ->. Qed.

Lemma post_triage_503 (bad : exn) (resp : Response) :
  code resp = 503 -> post_triage bad resp = Raise service_unavailable.
Proof. unfold post_triage. now intros ->. Qed.

(** Every operation that reaches the server, other than
    [get_server_status], raises the dedicated failure on a 503. *)
Lemma status_503_service_unavailable (w : World) (t : trace)
    (req : Request) (resp : Response) (call : M trace json) :
  response_of (urlopen w req) = Some resp ->
  code resp = 503 ->
  snd (call t) = t ++ [Sent req] ->
  (exists self, call = get_cluster_status w self)
  \/ (exists self name server_id, call = get_channel w self name server_id)
  \/ (exists self, call = list_all_channels w self)
  \/ (exists self server_id, call = list_channels_for_server w self server_id)
  \/ post_operation w call
  \/ (exists self pattern, call = find_channels_by_pattern w self pattern)
  \/ (exists self name start_time end_time count,
         call = get_samples w self name start_time end_time count) ->
  fst (call t) = Raise service_unavailable.
Proof.
  intros Hresp Hcode Hsent Hcall.
  repeat match goal with
         | H : _ \/ _ |- _ => destruct H
         | H : post_operation _ _ |- _ => destruct H
         | H : exists _, _ |- _ => destruct H
         end; subst call;
    first [ rewrite get_cluster_status_shape in *
          | rewrite get_channel_shape in *
          | rewrite list_all_channels_shape in *
          | rewrite list_channels_for_server_shape in *
          | rewrite import_server_configuration_shape in *
          | rewrite run_archive_configuration_commands_shape in *
          | rewrite find_channels_by_pattern_shape in *
          | rewrite get_samples_shape in * ];
    rewrite (exchange_outcome _ _ _ _ _ _ Hsent Hresp);
    rewrite ?(get_triage_503 _ Hcode), ?(post_triage_503 _ _ Hcode);
    reflexivity.
Qed.

Lemma export_server_configuration_503 (w : World) (self : AdminClient)
    (server_id : pystr) (configuration_file : option pystr) (t : trace)
    (resp : Response) :
  let req := GET (_base_url self ++
                  (lit "/channels/by-server/" ++ server_id ++ lit "/export"))
  in
  response_of (urlopen w req) = Some resp ->
  code resp = 503 ->
  export_server_configuration w self server_id configuration_file t
  = (Raise service_unavailable, t ++ [Sent req]).
Proof.
  intros req Hresp Hcode.
  unfold export_server_configuration, bind, lift, _do_req.
  rewrite req_get. fold req. cbv beta iota.
  destruct (urlopen w req); simpl in Hresp; inversion Hresp; subst;
    unfold_status; rewrite Hcode; reflexivity.
Qed.

(** C4 (the code departs from the claim). [get_server_status] has no
    test for status 503: when the server answers 503 it raises the
    generic failure "Request failed with status code 503", which is not
    the failure "Service currently not available". *)
Theorem get_server_status_503_generic_failure (w : World)
    (self : AdminClient) (t : trace) (resp : Response) :
  let req := GET (_base_url self ++ lit "/server-status/this-server/") in
  response_of (urlopen w req) = Some resp ->
  code resp = 503 ->
  get_server_status w self t
  = (Raise (Exception (JStr (lit "Request failed with status code 503"))),
     t ++ [Sent req])
  /\ fst (get_server_status w self t) <> Raise service_unavailable.
Proof.
  intros req Hresp Hcode.
  assert (E : get_server_status w self t
              = (Raise (Exception (JStr
                   (lit "Request failed with status code 503"))),
                 t ++ [Sent req])).
  { rewrite get_server_status_shape.
    rewrite (exchange_response _ _ _ _ req resp eq_refl Hresp).
    now rewrite Hcode. }
  split; [exact E|]. rewrite E. discriminate.
Qed.

Lemma get_server_status_503_generic_failure_witness :
  get_server_status (example_world 503 JNull) example_admin []
  = (Raise (Exception (JStr (lit "Request failed with status code 503"))),
     [Sent (GET (lit "http://localhost:4812/admin/api/1.0/server-status/this-server/"))])
  /\ get_cluster_status (example_world 503 JNull) example_admin []
     = (Raise (Exception (JStr (lit "Service currently not available"))),
        [Sent (GET (lit "http://localhost:4812/admin/api/1.0/cluster-status/"))]).
Proof.
  split.
  - exact (proj1 (get_server_status_503_generic_failure
                    (example_world 503 JNull) example_admin []
                    (mkResponse 503 json_headers []) eq_refl eq_refl)).
  - reflexivity.
Defined.

(** ** The two failure tiers of the POST operations *)

Lemma post_operation_shape (w : World) (call : M trace json) :
  post_operation w call ->
  exists (prepare : result Request) (finish : json -> result json),
    forall t,
      call t
      = exchange w prepare
          (fun resp =>
             _ <- post_triage (bad_request w resp) resp ;;
             resp_data <- _get_resp_data w resp ;;
             _ <- check_error_message resp_data ;;
             finish resp_data)%res t.
Proof.
  intros [(self & sid & cfg & a & r & u & s & ->)
         | (self & commands & ->)].
  - eexists. exists (fun resp_data => Ok resp_data). intro t.
    apply import_server_configuration_shape.
  - eexists. exists (fun resp_data => py_getitem resp_data (lit "results")).
    intro t. apply run_archive_configuration_commands_shape.
Qed.

Lemma post_triage_passes (bad : exn) (resp : Response) :
  _is_success_code (code resp) = true \/ code resp = 500 ->
  post_triage bad resp = Ok tt.
Proof.
  unfold post_triage. intros [H| ->]; [|reflexivity].
  rewrite H. unfold _is_success_code in H.
  apply andb_prop in H as [Hlo Hhi].
  apply Z.geb_le in Hlo. apply Z.ltb_lt in Hhi.
  repeat match goal with
         | |- context [code resp =? ?n] =>
             destruct (Z.eqb_spec (code resp) n); [lia|]
         end.
  reflexivity.
Qed.

Lemma check_error_message_raises (d : list (pystr * json)) (x : json) :
  dict_get d (lit "errorMessage") = Some x ->
  x <> JNull ->
  check_error_message (JDict d) = Raise (Exception x).
Proof.
  intros Hget Hx. unfold check_error_message, py_contains, py_getitem.
  rewrite Hget. simpl. destruct x; try reflexivity. congruence.
Qed.

(** C5. When [import_server_configuration] or
    [run_archive_configuration_commands] has sent its request and the
    response has a 2xx status or status 500, and its body parses to an
    object whose top-level [errorMessage] is some [x] other than null,
    the call raises [Exception(x)] instead of returning. *)
Theorem error_message_in_body_raises (w : World) (call : M trace json)
    (t : trace) (req : Request) (resp : Response)
    (d : list (pystr * json)) (x : json) :
  post_operation w call ->
  snd (call t) = t ++ [Sent req] ->
  response_of (urlopen w req) = Some resp ->
  _is_success_code (code resp) = true \/ code resp = 500 ->
  _get_resp_data w resp = Ok (JDict d) ->
  dict_get d (lit "errorMessage") = Some x ->
  x <> JNull ->
  fst (call t) = Raise (Exception x).
Proof.
  intros Hop Hsent Hresp Hcode Hdata Hget Hx.
  destruct (post_operation_shape w call Hop) as (prepare & finish & E).
  rewrite E in *.
  rewrite (exchange_outcome _ _ _ _ _ _ Hsent Hresp).
  rewrite (post_triage_passes _ _ Hcode), Hdata. cbn [rbind].
  now rewrite (check_error_message_raises d x Hget Hx).
Qed.

Lemma error_message_in_body_raises_witness :
  fst (import_server_configuration
         (example_world 200
            (JDict [(lit "errorMessage", JStr (lit "X"))]))
         example_admin (lit "s1") (FromBytes [1; 2; 3])
         None None None None [])
  = Raise (Exception (JStr (lit "X"))).
Proof.
  eapply (error_message_in_body_raises
            (example_world 200
               (JDict [(lit "errorMessage", JStr (lit "X"))]))
            _ [] _ (mkResponse 200 json_headers [])
            [(lit "errorMessage", JStr (lit "X"))]).
  - left. repeat eexists.
  - reflexivity.
  - reflexivity.
  - left. reflexivity.
  - reflexivity.
  - reflexivity.
  - discriminate.
Defined.

Lemma bad_request_spec (w : World) (resp : Response) :
  bad_request w resp
  = Exception
      match server_error_message (_get_resp_data w resp) with
      | Some x => x
      | None => malformed_request_message
      end.
Proof.
  unfold bad_request, bad_request_error_message, server_error_message.
  destruct (_get_resp_data w resp) as [[| | | | s | l | d]|e];
    cbn [rbind py_contains py_getitem]; try reflexivity.
  - now destruct (is_substring _ s).
  - now destruct (existsb _ l).
  - destruct (dict_get d (lit "errorMessage")) as [x|]; [|reflexivity].
    cbn [rbind]. now destruct (truthy x).
Qed.

Lemma post_triage_403 (bad : exn) (resp : Response) :
  code resp = 403 -> post_triage bad resp = Raise authentication_error.
Proof. unfold post_triage. now intros ->. Qed.

Lemma post_triage_400 (bad : exn) (resp : Response) :
  code resp = 400 -> post_triage bad resp = Raise bad.
Proof. unfold post_triage. now intros ->. Qed.

Lemma post_triage_other (bad : exn) (resp : Response) :
  _is_success_code (code resp) = false ->
  code resp <> 403 -> code resp <> 400 -> code resp <> 500 ->
  code resp <> 503 ->
  post_triage bad resp = Raise (request_failed (code resp)).
Proof.
  unfold post_triage. intros -> H1 H2 H3 H4.
  repeat match goal with
         | |- context [code resp =? ?n] =>
             destruct (Z.eqb_spec (code resp) n); [contradiction|]
         end.
  reflexivity.
Qed.

(** C6, as stated, fails: a 400 response whose body carries the
    [errorMessage] "Authentication error" raises the very failure that
    a 403 response raises, so the outcomes are not pairwise distinct;
    and a 400 response whose [errorMessage] parses to the empty string
    raises the fallback message, not that message. *)
Lemma bad_request_outcome_not_distinct :
  fst (import_server_configuration
         (example_world 400
            (JDict [(lit "errorMessage",
                     JStr (lit "Authentication error"))]))
         example_admin (lit "s1") (FromBytes [1; 2; 3])
         None None None None [])
  = fst (import_server_configuration (example_world 403 JNull)
           example_admin (lit "s1") (FromBytes [1; 2; 3])
           None None None None [])
  /\ fst (import_server_configuration
            (example_world 400 (JDict [(lit "errorMessage", JStr [])]))
            example_admin (lit "s1") (FromBytes [1; 2; 3])
            None None None None [])
     = Raise (Exception malformed_request_message)
  /\ Exception malformed_request_message <> Exception (JStr []).
Proof.
  split; [|split].
  - vm_compute. reflexivity.
  - vm_compute. reflexivity.
  - discriminate.
Qed.

Lemma fixed_failures_distinct :
  authentication_error <> Exception malformed_request_message
  /\ (forall n, request_failed n <> authentication_error)
  /\ (forall n, request_failed n <> Exception malformed_request_message).
Proof.
  split; [discriminate|].
  split; intros n H; unfold request_failed in H; cbn [lit] in H;
    discriminate H.
Qed.

(** C6, amended. When [import_server_configuration] or
    [run_archive_configuration_commands] has sent its request: a 403
    response raises [Exception('Authentication error')]; a 400 response
    raises [Exception(m)], where [m] is the top-level [errorMessage] of
    the body when the body parses to an object and that message is
    neither null nor empty (nor zero, nor false), and the fallback
    'Malformed request. Check the input parameters' otherwise; any other
    status outside 2xx, 500 and 503 raises 'Request failed with status
    code N'. The authentication failure, the fallback failure and the
    status-code failure are pairwise distinct. *)
Theorem post_failure_outcomes (w : World) (call : M trace json)
    (t : trace) (req : Request) (resp : Response) :
  post_operation w call ->
  snd (call t) = t ++ [Sent req] ->
  response_of (urlopen w req) = Some resp ->
  (code resp = 403 -> fst (call t) = Raise authentication_error)
  /\ (code resp = 400 ->
      fst (call t)
      = Raise (Exception
                 match server_error_message (_get_resp_data w resp) with
                 | Some m => m
                 | None => malformed_request_message
                 end))
  /\ (_is_success_code (code resp) = false ->
      code resp <> 403 -> code resp <> 400 -> code resp <> 500 ->
      code resp <> 503 ->
      fst (call t) = Raise (request_failed (code resp)))
  /\ authentication_error <> Exception malformed_request_message
  /\ (forall n, request_failed n <> authentication_error)
  /\ (forall n, request_failed n <> Exception malformed_request_message).
Proof.
  intros Hop Hsent Hresp.
  destruct (post_operation_shape w call Hop) as (prepare & finish & E).
  rewrite E in *.
  rewrite (exchange_outcome _ _ _ _ _ _ Hsent Hresp).
  split; [|split; [|split]].
  - intro H. now rewrite (post_triage_403 _ _ H).
  - intro H. now rewrite (post_triage_400 _ _ H), bad_request_spec.
  - intros H0 H1 H2 H3 H4.
    now rewrite (post_triage_other _ _ H0 H1 H2 H3 H4).
  - exact fixed_failures_distinct.
Qed.

Lemma post_failure_outcomes_witness :
  fst (import_server_configuration (example_world 404 JNull)
         example_admin (lit "s1") (FromBytes [1; 2; 3])
         None None None None [])
  = Raise (Exception (JStr (lit "Request failed with status code 404"))).
Proof.
  refine (proj1 (proj2 (proj2
    (post_failure_outcomes (example_world 404 JNull) _ [] _
       (mkResponse 404 json_headers []) _ _ _))) _ _ _ _ _).
  - left. repeat eexists.
  - reflexivity.
  - reflexivity.
  - reflexivity.
  - discriminate.
  - discriminate.
  - discriminate.
  - discriminate.
Defined.

(** ** The import request *)

Lemma b64char_ascii (i : Z) : 0 <= i < 64 -> is_ascii (b64char i) = true.
Proof.
  intro H. unfold b64char, is_ascii.
  repeat match goal with
         | |- context [if ?c then _ else _] => destruct c eqn:?
         end;
    repeat match goal with
           | H : (_ <? _) = true |- _ => apply Z.ltb_lt in H
           | H : (_ <? _) = false |- _ => apply Z.ltb_ge in H
           end;
    apply andb_true_intro; split;
    first [apply Z.leb_le | apply Z.ltb_lt]; lia.
Qed.

Lemma is_byte_range (b : Z) : is_byte b = true -> 0 <= b < 256.
Proof.
  unfold is_byte. intro H. apply andb_prop in H as [H1 H2].
  apply Z.leb_le in H1. apply Z.ltb_lt in H2. lia.
Qed.

Ltac b64_digits :=
  repeat match goal with
         | H : is_byte _ = true |- _ => apply is_byte_range in H
         end;
  cbn [forallb];
  rewrite ?b64char_ascii
    by (Z.to_euclidean_division_equations; lia).

Lemma b64encode_ascii_upto (l : bytes) :
  (forallb is_byte l = true -> forallb is_ascii (b64encode l) = true)
  /\ (forall a, forallb is_byte (a :: l) = true ->
                forallb is_ascii (b64encode (a :: l)) = true)
  /\ (forall a b, forallb is_byte (a :: b :: l) = true ->
                  forallb is_ascii (b64encode (a :: b :: l)) = true).
Proof.
  induction l as [|c l (IH0 & IH1 & IH2)].
  - split; [reflexivity|]. split.
    + intros a H. cbn [forallb] in H. apply andb_prop in H as [Ha _].
      cbn [b64encode]. b64_digits. reflexivity.
    + intros a b H. cbn [forallb] in H.
      apply andb_prop in H as [Ha H]. apply andb_prop in H as [Hb _].
      cbn [b64encode]. b64_digits. reflexivity.
  - split; [exact (IH1 c)|]. split; [exact (fun a => IH2 a c)|].
    intros a b H. cbn [forallb] in H.
    apply andb_prop in H as [Ha H]. apply andb_prop in H as [Hb H].
    apply andb_prop in H as [Hc Hl].
    cbn [b64encode]. rewrite forallb_app, (IH0 Hl). b64_digits.
    reflexivity.
Qed.

Lemma b64encode_ascii (l : bytes) :
  forallb is_byte l = true -> decode_ascii (b64encode l) = Ok (b64encode l).
Proof.
  intro H. unfold decode_ascii.
  now rewrite (proj1 (b64encode_ascii_upto l) H).
Qed.

(** C7. When the configuration payload is available (the argument
    itself when it is a [bytes] object, the contents of the file at the
    path otherwise), [import_server_configuration] sends exactly one
    request, a POST whose body is the JSON text of the mapping with the
    five keys [addChannels], [configurationFile], [removeChannels],
    [simulate], [updateChannels]: [configurationFile] is the base64
    encoding of the payload, and a flag that the caller leaves out is
    true, false, true and false for [addChannels], [removeChannels],
    [updateChannels] and [simulate]. *)
Theorem import_request_carries_payload (w : World) (self : AdminClient)
    (server_id : pystr) (configuration_file : configuration_source)
    (add_channels remove_channels update_channels simulate : option bool)
    (t : trace) (payload body : bytes) :
  configuration_payload w configuration_file = Ok payload ->
  forallb is_byte payload = true ->
  utf8_encode
    (json_dumps w
       (import_request_body payload
          (kw true add_channels) (kw false remove_channels)
          (kw true update_channels) (kw false simulate))) = Ok body ->
  snd (import_server_configuration w self server_id configuration_file
         add_channels remove_channels update_channels simulate t)
  = t ++ [Sent (POST (_base_url self ++ lit "/channels/by-server/"
                      ++ server_id ++ lit "/import")
                  (admin_auth_header self) body)]
  /\ command_keys (import_request_body payload
                     (kw true add_channels) (kw false remove_channels)
                     (kw true update_channels) (kw false simulate))
     = map lit ["addChannels"; "configurationFile"; "removeChannels";
                "simulate"; "updateChannels"]%string
  /\ import_request_body payload (kw true None) (kw false None)
       (kw true None) (kw false None)
     = JDict [(lit "addChannels", JBool true);
              (lit "configurationFile", JStr (b64encode payload));
              (lit "removeChannels", JBool false);
              (lit "simulate", JBool false);
              (lit "updateChannels", JBool true)].
Proof.
  intros Hpayload Hbytes Hbody.
  split; [|split; reflexivity].
  rewrite import_server_configuration_shape.
  apply exchange_trace.
  rewrite Hpayload. cbn [rbind].
  rewrite (b64encode_ascii payload Hbytes). cbn [rbind].
  unfold import_request_body in Hbody. rewrite Hbody. reflexivity.
Qed.

Lemma import_request_carries_payload_witness :
  snd (import_server_configuration (example_world 200 (JDict []))
         example_admin (lit "s1") (FromBytes [104; 105; 33])
         None None None None [])
  = [] ++ [Sent (POST (lit "http://localhost:4812/admin/api/1.0/channels/by-server/s1/import")
                   (lit "Basic YWRtaW46") (lit "{}"))].
Proof.
  exact (proj1 (import_request_carries_payload
                  (example_world 200 (JDict [])) example_admin (lit "s1")
                  (FromBytes [104; 105; 33]) None None None None []
                  [104; 105; 33] (lit "{}") eq_refl eq_refl eq_refl)).
Defined.

Example b64encode_examples :
  b64encode (lit "hi!") = lit "aGkh"
  /\ b64encode (lit "admin:") = lit "YWRtaW46"
  /\ b64encode (lit "a") = lit "YQ=="
  /\ b64encode (lit "ab") = lit "YWI=".
Proof. repeat split; vm_compute; reflexivity. Qed.

(** ** The sample query *)

(** C8. [get_samples] sends a GET for the path
    [/archive/1/samples/{quoted channel}?start={start}&end={end}],
    followed by [&count={count}] exactly when [count] is positive (a
    count that is left out is zero); for channel "ch1", start 1000 and
    end 2000 the path is [/archive/1/samples/ch1?start=1000&end=2000],
    and with count 50 it ends in [&count=50]. *)
Theorem get_samples_request_path (w : World) (self : ArchiveClient)
    (channel_name : pystr) (start_time end_time : Z) (count : option Z)
    (t : trace) (quoted : pystr) :
  quote channel_name = Ok quoted ->
  let base :=
    lit "/archive/1/samples/" ++ quoted ++ lit "?start="
    ++ str_of_int start_time ++ lit "&end=" ++ str_of_int end_time in
  snd (get_samples w self channel_name start_time end_time count t)
  = t ++ [Sent (GET (_base_url self
                     ++ samples_path quoted start_time end_time
                          (kw 0 count)))]
  /\ (kw 0 count > 0 ->
      samples_path quoted start_time end_time (kw 0 count)
      = base ++ lit "&count=" ++ str_of_int (kw 0 count))
  /\ (kw 0 count <= 0 ->
      samples_path quoted start_time end_time (kw 0 count) = base)
  /\ snd (get_samples w example_archive (lit "ch1") 1000 2000 None [])
     = [Sent (GET (_base_url example_archive
                   ++ lit "/archive/1/samples/ch1?start=1000&end=2000"))]
  /\ snd (get_samples w example_archive (lit "ch1") 1000 2000 (Some 50) [])
     = [Sent (GET (_base_url example_archive
                   ++ lit "/archive/1/samples/ch1?start=1000&end=2000&count=50"))].
Proof.
  intros Hq base. split; [|split; [|split; [|split]]].
  - rewrite get_samples_shape. apply exchange_trace.
    now rewrite Hq.
  - intro H. subst base. unfold samples_path.
    destruct (Z.ltb_spec 0 (kw 0 count)); [|lia].
    now rewrite <- !app_assoc.
  - intro H. subst base. unfold samples_path.
    destruct (Z.ltb_spec 0 (kw 0 count)); [lia|].
    now rewrite <- ?app_assoc, ?app_nil_r.
  - rewrite get_samples_shape.
    exact (exchange_trace w _ _ [] _ eq_refl).
  - rewrite get_samples_shape.
    exact (exchange_trace w _ _ [] _ eq_refl).
Qed.

Lemma get_samples_request_path_witness :
  snd (get_samples (example_world 200 (JList [])) example_archive
         (lit "a b/c") 1000 2000 (Some 50) [])
  = [] ++ [Sent (GET (lit "http://localhost:9812/archive-access/api/1.0/archive/1/samples/a%20b%2Fc?start=1000&end=2000&count=50"))].
Proof.
  exact (proj1 (get_samples_request_path (example_world 200 (JList []))
                  example_archive (lit "a b/c") 1000 2000 (Some 50) []
                  (lit "a%20b%2Fc") eq_refl)).
Defined.

(** * Further properties of the code *)

(** ** The tilde-escape is a code *)

Lemma tilde_escape_byte_output (b : Z) :
  is_byte b = true ->
  forallb tilde_output_char (tilde_escape_byte b) = true.
Proof.
  apply (byte_cases
           (fun b => forallb tilde_output_char (tilde_escape_byte b))).
  vm_compute. reflexivity.
Qed.

Lemma tilde_escape_bytes_output (bs : bytes) :
  forallb is_byte bs = true ->
  forallb tilde_output_char (flat_map tilde_escape_byte bs) = true.
Proof.
  induction bs as [|b bs IH]; simpl; intro H; [reflexivity|].
  apply andb_prop in H as [Hb Hbs].
  now rewrite forallb_app, (tilde_escape_byte_output b Hb), (IH Hbs).
Qed.

(** What [_encode_uri_part_custom] returns, in terms of the source's own
    byte map. *)
Lemma encode_uri_part_custom_bytes (s r : pystr) :
  _encode_uri_part_custom s = Ok r ->
  exists bs, utf8_encode s = Ok bs
             /\ forallb is_byte bs = true
             /\ r = flat_map tilde_escape_byte bs.
Proof.
  unfold _encode_uri_part_custom.
  destruct (utf8_encode s) as [bs|e] eqn:Hs; simpl; [|discriminate].
  rewrite fold_left_app_flat_map. simpl. unfold decode_ascii.
  destruct (forallb is_ascii _); [|discriminate].
  intro H. apply Ok_inj in H. exists bs.
  split; [reflexivity|]. split; [|now symmetry].
  exact (utf8_encode_bytes _ _ Hs).
Qed.

(** X1. Whatever the channel name, the string that
    [_encode_uri_part_custom] returns consists of letters, digits, [-],
    [_] and [~] only: it holds no [/], [%], [?], [#] or space, and no
    character outside ASCII. *)
Theorem encode_uri_part_custom_output_alphabet (s r : pystr) :
  _encode_uri_part_custom s = Ok r ->
  forallb tilde_output_char r = true
  /\ forallb is_ascii r = true
  /\ ~ In 0x2f r /\ ~ In 0x25 r /\ ~ In 0x3f r /\ ~ In 0x23 r
  /\ ~ In 0x20 r.
Proof.
  intro H. destruct (encode_uri_part_custom_bytes s r H)
    as (bs & Hs & Hbs & ->).
  pose proof (tilde_escape_bytes_output bs Hbs) as Hout.
  split; [exact Hout|]. split.
  - exact (proj2 (tilde_escape_bytes_spec bs Hbs)).
  - rewrite forallb_forall in Hout.
    repeat split; intro Hin; apply Hout in Hin; discriminate Hin.
Qed.

Lemma encode_uri_part_custom_output_alphabet_witness :
  forallb tilde_output_char (lit "a~2Fb~20~E2~82~AC") = true.
Proof.
  exact (proj1 (encode_uri_part_custom_output_alphabet
                  (lit "a/b " ++ [0x20AC]) (lit "a~2Fb~20~E2~82~AC")
                  eq_refl)).
Defined.

Lemma tilde_unescape_escape_byte (b : Z) (rest : pystr) :
  is_byte b = true ->
  tilde_unescape (tilde_escape_byte b ++ rest) = b :: tilde_unescape rest.
Proof.
  intro Hb.
  pose (P := fun b =>
    match tilde_escape_byte b with
    | [c] => (c =? b) && negb (c =? 0x7e)
    | [t; h; l] => (t =? 0x7e) && (unhex h * 16 + unhex l =? b)
    | _ => false
    end).
  assert (HP : P b = true) by (apply byte_cases; [vm_compute|]; trivial).
  unfold P in HP.
  destruct (tilde_escape_byte b) as [|c [|h [|l [|x xs]]]];
    try discriminate HP.
  - apply andb_prop in HP as [H1 H2]. apply Z.eqb_eq in H1. subst c.
    apply negb_true_iff in H2. cbn [app tilde_unescape]. now rewrite H2.
  - apply andb_prop in HP as [H1 H2]. apply Z.eqb_eq in H2.
    cbn [app tilde_unescape]. now rewrite H1, H2.
Qed.

Lemma tilde_unescape_escape (bs : bytes) :
  forallb is_byte bs = true ->
  tilde_unescape (flat_map tilde_escape_byte bs) = bs.
Proof.
  induction bs as [|b bs IH]; cbn [flat_map forallb]; intro H;
    [reflexivity|].
  apply andb_prop in H as [Hb Hbs].
  now rewrite (tilde_unescape_escape_byte b _ Hb), (IH Hbs).
Qed.

(** The UTF-8 encodings of two code points are never a prefix of one
    another. *)
Lemma utf8_encode_char_prefix_free (c1 c2 : Z) (b1 b2 r1 r2 : bytes) :
  utf8_encode_char c1 = Ok b1 ->
  utf8_encode_char c2 = Ok b2 ->
  b1 ++ r1 = b2 ++ r2 ->
  c1 = c2 /\ r1 = r2.
Proof.
  unfold utf8_encode_char.
  repeat match goal with
         | |- context [if ?b then _ else _] => destruct b eqn:?
         end;
    intros H1 H2; try discriminate H1; try discriminate H2;
    apply Ok_inj in H1; apply Ok_inj in H2; subst b1 b2;
    cbn [app]; intro H;
    repeat match goal with
           | H : (_ <? _) = true |- _ => apply Z.ltb_lt in H
           | H : (_ <? _) = false |- _ => apply Z.ltb_ge in H
           | H : andb _ _ = false |- _ => clear H
           | H : _ :: _ = _ :: _ |- _ =>
               let E := fresh "E" in
               pose proof (f_equal (hd 0) H) as E; cbn [hd] in E;
               apply (f_equal (@tl Z)) in H; cbn [tl] in H
           end;
    match goal with
    | H : r1 = r2 |- _ =>
        split; [Z.to_euclidean_division_equations; lia | exact H]
    | _ => exfalso; Z.to_euclidean_division_equations; lia
    end.
Qed.

Lemma utf8_encode_char_nonempty (c : Z) (b : bytes) :
  utf8_encode_char c = Ok b -> b <> [].
Proof.
  unfold utf8_encode_char.
  repeat match goal with
         | |- context [if ?b then _ else _] => destruct b
         end; intro H; try discriminate H; apply Ok_inj in H; subst b;
    discriminate.
Qed.

Lemma utf8_encode_cons (c : Z) (s : pystr) (bs : bytes) :
  utf8_encode (c :: s) = Ok bs ->
  exists b rest, utf8_encode_char c = Ok b /\ utf8_encode s = Ok rest
                 /\ bs = b ++ rest.
Proof.
  unfold utf8_encode. cbn [rmap].
  destruct (utf8_encode_char c) as [b|]; cbn [rbind]; [|discriminate].
  destruct (rmap utf8_encode_char s) as [chunks|]; cbn [rbind];
    [|discriminate].
  intro H. apply Ok_inj in H. exists b, (List.concat chunks).
  repeat split. now subst bs.
Qed.

Lemma utf8_encode_injective (s1 s2 : pystr) (bs : bytes) :
  utf8_encode s1 = Ok bs -> utf8_encode s2 = Ok bs -> s1 = s2.
Proof.
  revert s2 bs. induction s1 as [|c1 s1 IH]; intros [|c2 s2] bs H1 H2.
  - reflexivity.
  - apply Ok_inj in H1. subst bs.
    destruct (utf8_encode_cons _ _ _ H2) as (b & rest & Hb & _ & E).
    destruct b; [now apply utf8_encode_char_nonempty in Hb|discriminate].
  - apply Ok_inj in H2. subst bs.
    destruct (utf8_encode_cons _ _ _ H1) as (b & rest & Hb & _ & E).
    destruct b; [now apply utf8_encode_char_nonempty in Hb|discriminate].
  - destruct (utf8_encode_cons _ _ _ H1) as (b1 & r1 & Hb1 & Hr1 & E1).
    destruct (utf8_encode_cons _ _ _ H2) as (b2 & r2 & Hb2 & Hr2 & E2).
    subst bs.
    destruct (utf8_encode_char_prefix_free _ _ _ _ _ _ Hb1 Hb2 E2)
      as [-> ->].
    f_equal. exact (IH s2 r2 Hr1 Hr2).
Qed.

(** X2. [_encode_uri_part_custom] is reversible: the bytes of the name
    are read back from its result by replacing each [~XX] with the byte
    of that hexadecimal value, and two channel names with the same
    result are the same name. *)
Theorem encode_uri_part_custom_injective (s1 s2 r : pystr) :
  _encode_uri_part_custom s1 = Ok r ->
  _encode_uri_part_custom s2 = Ok r ->
  utf8_encode s1 = Ok (tilde_unescape r) /\ s1 = s2.
Proof.
  intros H1 H2.
  destruct (encode_uri_part_custom_bytes s1 r H1) as (b1 & Hs1 & Hb1 & E1).
  destruct (encode_uri_part_custom_bytes s2 r H2) as (b2 & Hs2 & Hb2 & E2).
  assert (U1 : tilde_unescape r = b1)
    by (subst r; now apply tilde_unescape_escape).
  assert (U2 : tilde_unescape r = b2)
    by (rewrite E2; now apply tilde_unescape_escape).
  rewrite U1. split; [exact Hs1|].
  apply (utf8_encode_injective s1 s2 b1 Hs1). congruence.
Qed.

Lemma encode_uri_part_custom_injective_witness :
  utf8_encode (lit "a/b " ++ [0x20AC])
  = Ok (tilde_unescape (lit "a~2Fb~20~E2~82~AC")).
Proof.
  exact (proj1 (encode_uri_part_custom_injective
                  (lit "a/b " ++ [0x20AC]) (lit "a/b " ++ [0x20AC])
                  (lit "a~2Fb~20~E2~82~AC") eq_refl eq_refl)).
Defined.

(** ** One request per call *)

Lemma verbatim_operation_shape (w : World) (call : M trace json) :
  verbatim_operation w call ->
  exists prepare : result Request,
    (forall req, prepare = Ok req -> exists url, req = GET url)
    /\ forall t,
         call t
         = exchange w prepare
             (fun resp => _ <- get_triage resp ;; _get_resp_data w resp)%res
             t.
Proof.
  intros [(self & ->)
         |[(self & name & sid & ->)
          |[(self & pattern & ->)
           |(self & name & st & en & count & ->)]]];
    eexists; (split; [|intro t;
      first [ apply get_cluster_status_shape
            | apply get_channel_shape
            | apply find_channels_by_pattern_shape
            | apply get_samples_shape ]]);
    intros req H;
    repeat match type of H with
           | context [match ?x with Ok _ => _ | Raise _ => _ end] =>
               destruct x; cbn [rbind] in H
           | (_ <- ?x ;; _)%res = _ => destruct x; cbn [rbind] in H
           end;
    try discriminate H; apply Ok_inj in H; subst req; eexists;
    reflexivity.
Qed.

Lemma list_operation_shape (w : World) (call : M trace json) :
  list_operation w call ->
  exists prepare : result Request,
    (forall req, prepare = Ok req -> exists url, req = GET url)
    /\ forall t,
         call t
         = exchange w prepare
             (fun resp =>
                _ <- get_triage resp ;;
                resp_data <- _get_resp_data w resp ;;
                py_getitem resp_data (lit "channels"))%res t.
Proof.
  intros [(self & ->)|(self & sid & ->)]; eexists;
    (split; [|intro t;
      first [ apply list_all_channels_shape
            | apply list_channels_for_server_shape ]]);
    intros req H; apply Ok_inj in H; subst req; eexists; reflexivity.
Qed.

Lemma read_operation_shape (w : World) (call : M trace json) :
  read_operation w call ->
  exists (prepare : result Request) (handle : Response -> result json),
    (forall req, prepare = Ok req -> exists url, req = GET url)
    /\ forall t, call t = exchange w prepare handle t.
Proof.
  intros [H|[H|(self & ->)]].
  - destruct (verbatim_operation_shape w call H) as (prepare & Hp & E).
    eauto.
  - destruct (list_operation_shape w call H) as (prepare & Hp & E). eauto.
  - do 2 eexists. split; [|intro t; apply get_server_status_shape].
    intros req H. apply Ok_inj in H. subst req. eexists. reflexivity.
Qed.

Lemma operation_shape (w : World) (call : M trace json) :
  read_operation w call \/ post_operation w call ->
  exists (prepare : result Request) (handle : Response -> result json),
    forall t, call t = exchange w prepare handle t.
Proof.
  intros [H|H].
  - destruct (read_operation_shape w call H) as (p & h & _ & E). eauto.
  - destruct (post_operation_shape w call H) as (p & f & E). eauto.
Qed.

Lemma exchange_trace_cases {A} (w : World) (prepare : result Request)
    (handle : Response -> result A) (t : trace) :
  (exists e, exchange w prepare handle t = (Raise e, t))
  \/ (exists req, prepare = Ok req
                  /\ snd (exchange w prepare handle t) = t ++ [Sent req]).
Proof.
  destruct prepare as [req|e].
  - right. exists req. split; [reflexivity|].
    now apply exchange_trace.
  - left. now exists e.
Qed.

(** X3. No operation retries or sends a second request: a call of any of
    the JSON-returning operations of the two clients either raises
    before it sends anything and leaves the trace as it was, or adds
    exactly one request to it. *)
Theorem at_most_one_request (w : World) (call : M trace json) (t : trace) :
  read_operation w call \/ post_operation w call ->
  (exists e, call t = (Raise e, t))
  \/ (exists req, snd (call t) = t ++ [Sent req]).
Proof.
  intro H. destruct (operation_shape w call H) as (prepare & handle & E).
  rewrite E.
  destruct (exchange_trace_cases w prepare handle t)
    as [Hraise|(req & _ & Hsent)]; [now left|right; eauto].
Qed.

Lemma at_most_one_request_witness :
  (exists e,
      get_channel (example_world 200 JNull) example_admin [0xD800] None []
      = (Raise e, []))
  \/ (exists req,
         snd (get_channel (example_world 200 JNull) example_admin
                [0xD800] None [])
         = [] ++ [Sent req]).
Proof.
  apply (at_most_one_request (example_world 200 JNull)).
  left. left. right. left. repeat eexists.
Defined.

(** ** What the requests look like *)

(** X4. A request sent by a read-only operation is a GET without body
    whose only headers are [Accept: application/json] and
    [Accept-Encoding: gzip]: it never carries the credentials. *)
Theorem read_requests_are_plain_gets (w : World) (call : M trace json)
    (t : trace) (req : Request) :
  read_operation w call ->
  snd (call t) = t ++ [Sent req] ->
  method req = lit "GET"
  /\ data req = None
  /\ headers req = plain_headers
  /\ dict_get (headers req) (lit "Authorization") = None.
Proof.
  intros Hop Hsent.
  destruct (read_operation_shape w call Hop) as (prepare & handle & Hp & E).
  rewrite E in Hsent. apply exchange_sent in Hsent.
  destruct (Hp req Hsent) as [url ->]. repeat split.
Qed.

Lemma read_requests_are_plain_gets_witness :
  method (GET (lit "http://localhost:4812/admin/api/1.0/channels/all/"))
  = lit "GET".
Proof.
  refine (proj1 (read_requests_are_plain_gets (example_world 200 JNull)
                   (list_all_channels (example_world 200 JNull)
                      example_admin)
                   [] _ _ eq_refl)).
  right. left. left. now exists example_admin.
Defined.

Lemma post_request_form (prepare : result Request) (url auth : pystr)
    (encoded : result bytes) (req : Request) :
  prepare = (body <- encoded ;; Ok (POST url auth body))%res ->
  prepare = Ok req ->
  exists body, encoded = Ok body /\ req = POST url auth body.
Proof.
  intros -> H. destruct encoded as [body|e]; cbn [rbind] in H;
    [|discriminate H].
  apply Ok_inj in H. now exists body.
Qed.

(** X5. A request sent by [import_server_configuration] or by
    [run_archive_configuration_commands] is a POST that carries the
    client's precomputed [Authorization] header and the content type
    [application/json;charset=UTF-8]. *)
Theorem post_requests_are_authenticated (w : World) (self : AdminClient)
    (call : M trace json) (t : trace) (req : Request) :
  (exists server_id configuration_file add_channels remove_channels
          update_channels simulate,
      call = import_server_configuration w self server_id
               configuration_file add_channels remove_channels
               update_channels simulate)
  \/ (exists commands,
         call = run_archive_configuration_commands w self commands) ->
  snd (call t) = t ++ [Sent req] ->
  method req = lit "POST"
  /\ dict_get (headers req) (lit "Authorization")
     = Some (admin_auth_header self)
  /\ dict_get (headers req) (lit "Content-Type")
     = Some (lit "application/json;charset=UTF-8")
  /\ dict_get (headers req) (lit "Accept") = Some (lit "application/json")
  /\ data req <> None.
Proof.
  intros [(sid & cfg & a & r & u & s & ->)|(commands & ->)] Hsent.
  - rewrite import_server_configuration_shape in Hsent.
    apply exchange_sent in Hsent.
    destruct (configuration_payload w cfg) as [payload|];
      cbn [rbind] in Hsent; [|discriminate Hsent].
    destruct (decode_ascii (b64encode payload)) as [text|];
      cbn [rbind] in Hsent; [|discriminate Hsent].
    destruct (post_request_form _ _ _ _ req eq_refl Hsent)
      as (body & _ & ->).
    repeat split. discriminate.
  - rewrite run_archive_configuration_commands_shape in Hsent.
    apply exchange_sent in Hsent.
    destruct (post_request_form _ _ _ _ req eq_refl Hsent)
      as (body & _ & ->).
    repeat split. discriminate.
Qed.

Lemma post_requests_are_authenticated_witness :
  dict_get
    (headers (POST (lit "http://localhost:4812/admin/api/1.0/run-archive-configuration-commands")
                (lit "Basic YWRtaW46") (lit "{}")))
    (lit "Authorization")
  = Some (lit "Basic YWRtaW46").
Proof.
  refine (proj1 (proj2 (post_requests_are_authenticated
                          (example_world 200 (JDict [])) example_admin
                          (run_archive_configuration_commands
                             (example_world 200 (JDict [])) example_admin
                             [])
                          [] _ _ eq_refl))).
  right. now exists [].
Defined.

(** ** Failures of the transport *)

Lemma exchange_unreachable {A} (w : World) (prepare : result Request)
    (handle : Response -> result A) (t : trace) (req : Request) (e : exn) :
  snd (exchange w prepare handle t) = t ++ [Sent req] ->
  urlopen w req = RaisesOther e ->
  fst (exchange w prepare handle t) = Raise e.
Proof.
  intros Hsent Hw. apply exchange_sent in Hsent. subst prepare.
  unfold exchange. now rewrite Hw.
Qed.

(** X6. An exception of [urlopen] other than [HTTPError] (the server
    cannot be reached, say) is not caught: the operation raises that
    very exception. *)
Theorem transport_error_propagates (w : World) (call : M trace json)
    (t : trace) (req : Request) (e : exn) :
  read_operation w call \/ post_operation w call ->
  snd (call t) = t ++ [Sent req] ->
  urlopen w req = RaisesOther e ->
  fst (call t) = Raise e.
Proof.
  intros Hop Hsent Hw.
  destruct (operation_shape w call Hop) as (prepare & handle & E).
  rewrite E in *. exact (exchange_unreachable _ _ _ _ _ _ Hsent Hw).
Qed.

Lemma transport_error_propagates_witness :
  fst (get_samples (unreachable_world (OtherError (lit "URLError")))
         example_archive (lit "ch1") 0 1 None [])
  = Raise (OtherError (lit "URLError")).
Proof.
  refine (transport_error_propagates
            (unreachable_world (OtherError (lit "URLError")))
            (get_samples (unreachable_world (OtherError (lit "URLError")))
               example_archive (lit "ch1") 0 1 None)
            [] _ _ _ eq_refl eq_refl).
  left. left. right. right. right. repeat eexists.
Defined.

(** ** Status handling of the read-only operations *)

Lemma get_triage_failure (resp : Response) :
  _is_success_code (code resp) = false ->
  code resp <> 503 ->
  get_triage resp = Raise (request_failed (code resp)).
Proof.
  unfold get_triage. intros -> H.
  destruct (Z.eqb_spec (code resp) 503); [contradiction|reflexivity].
Qed.

Lemma get_triage_success (resp : Response) :
  _is_success_code (code resp) = true -> get_triage resp = Ok tt.
Proof.
  unfold get_triage. intro H. rewrite H.
  unfold _is_success_code in H. apply andb_prop in H as [_ Hhi].
  apply Z.ltb_lt in Hhi.
  destruct (Z.eqb_spec (code resp) 503); [lia|reflexivity].
Qed.

(** X7. The read-only operations have no special case for 400, 403 or
    500: any status outside 2xx other than 503 raises "Request failed
    with status code N", whatever the body says. *)
Theorem read_status_failure (w : World) (call : M trace json) (t : trace)
    (req : Request) (resp : Response) :
  read_operation w call ->
  snd (call t) = t ++ [Sent req] ->
  response_of (urlopen w req) = Some resp ->
  _is_success_code (code resp) = false ->
  code resp <> 503 ->
  fst (call t) = Raise (request_failed (code resp)).
Proof.
  intros [H|[H|(self & ->)]] Hsent Hresp Hfail H503.
  - destruct (verbatim_operation_shape w call H) as (prepare & _ & E).
    rewrite E in *. rewrite (exchange_outcome _ _ _ _ _ _ Hsent Hresp).
    now rewrite (get_triage_failure resp Hfail H503).
  - destruct (list_operation_shape w call H) as (prepare & _ & E).
    rewrite E in *. rewrite (exchange_outcome _ _ _ _ _ _ Hsent Hresp).
    now rewrite (get_triage_failure resp Hfail H503).
  - rewrite get_server_status_shape in *.
    rewrite (exchange_outcome _ _ _ _ _ _ Hsent Hresp).
    now rewrite Hfail.
Qed.

Lemma read_status_failure_witness :
  fst (get_cluster_status
         (example_world 400 (JDict [(lit "errorMessage", JStr (lit "X"))]))
         example_admin [])
  = Raise (request_failed 400).
Proof.
  refine (read_status_failure
            (example_world 400
               (JDict [(lit "errorMessage", JStr (lit "X"))]))
            (get_cluster_status
               (example_world 400
                  (JDict [(lit "errorMessage", JStr (lit "X"))]))
               example_admin)
            [] _ (mkResponse 400 json_headers []) _ eq_refl eq_refl
            eq_refl _).
  - left. left. now exists example_admin.
  - discriminate.
Defined.

(** X8. On a 2xx response, [get_cluster_status], [get_server_status],
    [get_channel], [find_channels_by_pattern] and [get_samples] return
    exactly what [_get_resp_data] reads from the response, and raise
    what it raises; the body is not inspected any further. *)
Theorem verbatim_success (w : World) (call : M trace json) (t : trace)
    (req : Request) (resp : Response) :
  verbatim_operation w call
  \/ (exists self, call = get_server_status w self) ->
  snd (call t) = t ++ [Sent req] ->
  response_of (urlopen w req) = Some resp ->
  _is_success_code (code resp) = true ->
  fst (call t) = _get_resp_data w resp.
Proof.
  intros [H|(self & ->)] Hsent Hresp Hok.
  - destruct (verbatim_operation_shape w call H) as (prepare & _ & E).
    rewrite E in *. rewrite (exchange_outcome _ _ _ _ _ _ Hsent Hresp).
    now rewrite (get_triage_success resp Hok).
  - rewrite get_server_status_shape in *.
    rewrite (exchange_outcome _ _ _ _ _ _ Hsent Hresp).
    now rewrite Hok.
Qed.

Lemma verbatim_success_witness :
  fst (get_samples
         (example_world 200 (JDict [(lit "errorMessage", JStr (lit "X"))]))
         example_archive (lit "ch1") 0 1 None [])
  = Ok (JDict [(lit "errorMessage", JStr (lit "X"))]).
Proof.
  refine (verbatim_success
            (example_world 200
               (JDict [(lit "errorMessage", JStr (lit "X"))]))
            (get_samples
               (example_world 200
                  (JDict [(lit "errorMessage", JStr (lit "X"))]))
               example_archive (lit "ch1") 0 1 None)
            [] _ (mkResponse 200 json_headers []) _ eq_refl eq_refl
            eq_refl).
  left. right. right. right. repeat eexists.
Defined.

(** X9. On a 2xx response whose body parses, [list_all_channels] and
    [list_channels_for_server] return the entry [channels] of the body;
    a body that is an object without that entry raises [KeyError], and a
    body that is not an object raises [TypeError]. *)
Theorem list_operations_return_channels (w : World) (call : M trace json)
    (t : trace) (req : Request) (resp : Response) (resp_data : json) :
  list_operation w call ->
  snd (call t) = t ++ [Sent req] ->
  response_of (urlopen w req) = Some resp ->
  _is_success_code (code resp) = true ->
  _get_resp_data w resp = Ok resp_data ->
  fst (call t)
  = match resp_data with
    | JDict d =>
        match dict_get d (lit "channels") with
        | Some channels => Ok channels
        | None => Raise (KeyError (lit "channels"))
        end
    | _ => Raise TypeError
    end.
Proof.
  intros H Hsent Hresp Hok Hdata.
  destruct (list_operation_shape w call H) as (prepare & _ & E).
  rewrite E in *. rewrite (exchange_outcome _ _ _ _ _ _ Hsent Hresp).
  rewrite (get_triage_success resp Hok), Hdata. reflexivity.
Qed.

Lemma list_operations_return_channels_witness :
  fst (list_all_channels (example_world 200 (JDict [])) example_admin [])
  = Raise (KeyError (lit "channels")).
Proof.
  refine (list_operations_return_channels
            (example_world 200 (JDict []))
            (list_all_channels (example_world 200 (JDict []))
               example_admin)
            [] _ (mkResponse 200 json_headers []) (JDict []) _ eq_refl
            eq_refl eq_refl eq_refl).
  left. now exists example_admin.
Defined.

(** ** The POST operations beyond their failures *)

Lemma check_error_message_passes (d : list (pystr * json)) :
  dict_get d (lit "errorMessage") = None
  \/ dict_get d (lit "errorMessage") = Some JNull ->
  check_error_message (JDict d) = Ok tt.
Proof.
  unfold check_error_message, py_contains, py_getitem.
  now intros [-> | ->].
Qed.

Lemma check_error_message_dict_inv (d : list (pystr * json)) :
  check_error_message (JDict d) = Ok tt ->
  dict_get d (lit "errorMessage") = None
  \/ dict_get d (lit "errorMessage") = Some JNull.
Proof.
  unfold check_error_message, py_contains, py_getitem.
  destruct (dict_get d (lit "errorMessage")) as [x|]; [|now left].
  cbn [rbind]. destruct x; cbn [is_none negb]; try discriminate.
  now right.
Qed.

(** X10. A 2xx response, and a 500 response alike, whose body parses to
    an object without [errorMessage], or with a null one, makes
    [import_server_configuration] return that object as it is, and
    [run_archive_configuration_commands] return its entry [results]
    ([KeyError] if there is none). *)
Theorem post_success (w : World) (self : AdminClient) (t : trace)
    (req : Request) (resp : Response) (d : list (pystr * json)) :
  response_of (urlopen w req) = Some resp ->
  _is_success_code (code resp) = true \/ code resp = 500 ->
  _get_resp_data w resp = Ok (JDict d) ->
  dict_get d (lit "errorMessage") = None
  \/ dict_get d (lit "errorMessage") = Some JNull ->
  (forall server_id configuration_file add_channels remove_channels
          update_channels simulate,
      let call := import_server_configuration w self server_id
                    configuration_file add_channels remove_channels
                    update_channels simulate in
      snd (call t) = t ++ [Sent req] -> fst (call t) = Ok (JDict d))
  /\ (forall commands,
         let call := run_archive_configuration_commands w self commands in
         snd (call t) = t ++ [Sent req] ->
         fst (call t)
         = match dict_get d (lit "results") with
           | Some results => Ok results
           | None => Raise (KeyError (lit "results"))
           end).
Proof.
  intros Hresp Hcode Hdata Hmsg. split; intros; subst call.
  - rewrite import_server_configuration_shape in *.
    rewrite (exchange_outcome _ _ _ _ _ _ H Hresp).
    rewrite (post_triage_passes _ _ Hcode), Hdata. cbn [rbind].
    now rewrite (check_error_message_passes d Hmsg).
  - rewrite run_archive_configuration_commands_shape in *.
    rewrite (exchange_outcome _ _ _ _ _ _ H Hresp).
    rewrite (post_triage_passes _ _ Hcode), Hdata. cbn [rbind].
    now rewrite (check_error_message_passes d Hmsg).
Qed.

Lemma post_success_witness :
  fst (import_server_configuration
         (example_world 500 (JDict [(lit "errorMessage", JNull)]))
         example_admin (lit "s1") (FromBytes []) None None None None [])
  = Ok (JDict [(lit "errorMessage", JNull)]).
Proof.
  refine (proj1 (post_success
                   (example_world 500 (JDict [(lit "errorMessage", JNull)]))
                   example_admin [] _ (mkResponse 500 json_headers [])
                   [(lit "errorMessage", JNull)] eq_refl _ eq_refl _)
            (lit "s1") (FromBytes []) None None None None eq_refl).
  - now right.
  - now right.
Defined.

Lemma post_triage_ok_inv (bad : exn) (resp : Response) :
  post_triage bad resp = Ok tt ->
  _is_success_code (code resp) = true \/ code resp = 500.
Proof.
  unfold post_triage.
  destruct (code resp =? 403); [discriminate|].
  destruct (code resp =? 400); [discriminate|].
  destruct (Z.eqb_spec (code resp) 500); [now right|].
  destruct (code resp =? 503); [discriminate|].
  destruct (_is_success_code (code resp)); [now left|discriminate].
Qed.

(** X11. [import_server_configuration] and
    [run_archive_configuration_commands] return normally only when the
    status is 2xx or 500 and the body parses; if the body is an object,
    its [errorMessage] is then absent or null. *)
Theorem post_returns_only_on_success (w : World) (call : M trace json)
    (t : trace) (req : Request) (resp : Response) (value : json) :
  post_operation w call ->
  snd (call t) = t ++ [Sent req] ->
  response_of (urlopen w req) = Some resp ->
  fst (call t) = Ok value ->
  (_is_success_code (code resp) = true \/ code resp = 500)
  /\ exists resp_data,
       _get_resp_data w resp = Ok resp_data
       /\ forall d, resp_data = JDict d ->
                    dict_get d (lit "errorMessage") = None
                    \/ dict_get d (lit "errorMessage") = Some JNull.
Proof.
  intros Hop Hsent Hresp Hret.
  destruct (post_operation_shape w call Hop) as (prepare & finish & E).
  rewrite E in *.
  rewrite (exchange_outcome _ _ _ _ _ _ Hsent Hresp) in Hret.
  destruct (post_triage (bad_request w resp) resp) as [[]|] eqn:Htriage;
    cbn [rbind] in Hret; [|discriminate Hret].
  split; [exact (post_triage_ok_inv _ _ Htriage)|].
  destruct (_get_resp_data w resp) as [resp_data|]; cbn [rbind] in Hret;
    [|discriminate Hret].
  exists resp_data. split; [reflexivity|]. intros d ->.
  destruct (check_error_message (JDict d)) as [[]|] eqn:Hcheck;
    cbn [rbind] in Hret; [|discriminate Hret].
  exact (check_error_message_dict_inv d Hcheck).
Qed.

Lemma post_returns_only_on_success_witness :
  _is_success_code 201 = true \/ 201 = 500.
Proof.
  refine (proj1 (post_returns_only_on_success
                   (example_world 201 (JDict [(lit "results", JList [])]))
                   (run_archive_configuration_commands
                      (example_world 201
                         (JDict [(lit "results", JList [])]))
                      example_admin [])
                   [] _ (mkResponse 201 json_headers []) (JList []) _
                   eq_refl eq_refl eq_refl)).
  right. now exists example_admin, [].
Defined.

(** X12. When the configuration file cannot be read,
    [import_server_configuration] raises the error of the read and
    sends nothing. *)
Theorem import_unreadable_file (w : World) (self : AdminClient)
    (server_id path : pystr)
    (add_channels remove_channels update_channels simulate : option bool)
    (t : trace) (e : exn) :
  read_file w path = Raise e ->
  import_server_configuration w self server_id (FromPath path)
    add_channels remove_channels update_channels simulate t
  = (Raise e, t).
Proof.
  intro H. rewrite import_server_configuration_shape.
  unfold exchange, configuration_payload. now rewrite H.
Qed.

Lemma import_unreadable_file_witness :
  import_server_configuration (example_world 200 (JDict [])) example_admin
    (lit "s1") (FromPath (lit "/nonexistent")) None None None None []
  = (Raise (OtherError (lit "FileNotFoundError")), []).
Proof.
  exact (import_unreadable_file (example_world 200 (JDict []))
           example_admin (lit "s1") (lit "/nonexistent") None None None
           None [] _ eq_refl).
Defined.

(** X13. When the body of a 2xx or 500 response parses to null, a
    boolean or a number, the test ['errorMessage' in resp_data] of the
    two POST operations raises [TypeError]. *)
Theorem post_scalar_body_type_error (w : World) (call : M trace json)
    (t : trace) (req : Request) (resp : Response) (resp_data : json) :
  post_operation w call ->
  snd (call t) = t ++ [Sent req] ->
  response_of (urlopen w req) = Some resp ->
  _is_success_code (code resp) = true \/ code resp = 500 ->
  _get_resp_data w resp = Ok resp_data ->
  match resp_data with
  | JNull | JBool _ | JInt _ | JFloat _ _ => True
  | _ => False
  end ->
  fst (call t) = Raise TypeError.
Proof.
  intros Hop Hsent Hresp Hcode Hdata Hscalar.
  destruct (post_operation_shape w call Hop) as (prepare & finish & E).
  rewrite E in *. rewrite (exchange_outcome _ _ _ _ _ _ Hsent Hresp).
  rewrite (post_triage_passes _ _ Hcode), Hdata.
  destruct resp_data; try contradiction; reflexivity.
Qed.

Lemma post_scalar_body_type_error_witness :
  fst (run_archive_configuration_commands (example_world 200 JNull)
         example_admin [] [])
  = Raise TypeError.
Proof.
  refine (post_scalar_body_type_error (example_world 200 JNull)
            (run_archive_configuration_commands (example_world 200 JNull)
               example_admin [])
            [] _ (mkResponse 200 json_headers []) JNull _ eq_refl eq_refl
            _ eq_refl I).
  - right. now exists example_admin, [].
  - now left.
Defined.

(** X14. [run_archive_configuration_commands] sends exactly one request:
    a POST to [/run-archive-configuration-commands] whose body is the
    JSON text of the mapping with the single key [commands], holding the
    commands in the order of the list; an empty list is sent too. *)
Theorem run_request_carries_commands (w : World) (self : AdminClient)
    (commands : list json) (t : trace) (body : bytes) :
  utf8_encode (json_dumps w (JDict [(lit "commands", JList commands)]))
  = Ok body ->
  snd (run_archive_configuration_commands w self commands t)
  = t ++ [Sent (POST (_base_url self
                      ++ lit "/run-archive-configuration-commands")
                  (admin_auth_header self) body)].
Proof.
  intro H. rewrite run_archive_configuration_commands_shape.
  apply exchange_trace. now rewrite H.
Qed.

Lemma run_request_carries_commands_witness :
  snd (run_archive_configuration_commands (example_world 200 (JDict []))
         example_admin [] [])
  = [] ++ [Sent (POST (lit "http://localhost:4812/admin/api/1.0/run-archive-configuration-commands")
                   (lit "Basic YWRtaW46") (lit "{}"))].
Proof.
  exact (run_request_carries_commands (example_world 200 (JDict []))
           example_admin [] [] (lit "{}") eq_refl).
Defined.

(** ** [export_server_configuration] *)

Lemma export_server_configuration_shape (w : World) (self : AdminClient)
    (server_id : pystr) (configuration_file : option pystr) (t : trace) :
  export_server_configuration w self server_id configuration_file t
  = match
      exchange w
        (Ok (GET (_base_url self ++
                  (lit "/channels/by-server/" ++ server_id
                   ++ lit "/export"))))
        (fun resp =>
           _ <- get_triage resp ;;
           resp_data <- _get_resp_data w resp ;;
           field <- py_getitem resp_data (lit "configurationFile") ;;
           encoded <- match field with
                      | JStr s => encode_ascii s
                      | _ => Raise AttributeError
                      end ;;
           b64decode w encoded)%res t
    with
    | (Ok contents, t') =>
        match configuration_file with
        | None => (Ok (Some contents), t')
        | Some path =>
            match open_for_writing w path with
            | Ok _ => (Ok None, t' ++ [Wrote path contents])
            | Raise e => (Raise e, t')
            end
        end
    | (Raise e, t') => (Raise e, t')
    end.
Proof.
  unfold export_server_configuration, exchange, bind, lift, raise, ret,
    _do_req, get_triage; unfold_status.
  rewrite req_get. cbv beta iota.
  destruct (urlopen w _) as [resp|resp|e]; [| |reflexivity];
    (destruct (code resp =? 503); [reflexivity|];
     destruct (negb (_is_success_code (code resp))); [reflexivity|];
     cbn [rbind];
     destruct (_get_resp_data w resp) as [resp_data|]; [|reflexivity];
     cbn [rbind];
     destruct (py_getitem resp_data (lit "configurationFile")) as [field|];
       [|reflexivity];
     cbn [rbind];
     destruct (match field with
               | JStr s => encode_ascii s
               | _ => Raise AttributeError
               end) as [encoded|]; [|reflexivity];
     cbn [rbind];
     destruct (b64decode w encoded); [|reflexivity];
     destruct configuration_file as [path|]; [|reflexivity];
     destruct (open_for_writing w path); reflexivity).
Qed.

(** X15. When the export request is answered with a 2xx status and a
    body whose [configurationFile] is the ASCII string [s], and [s] is
    the base64 encoding of [contents]: without a file path
    [export_server_configuration] returns [contents] and writes
    nothing; with a path it writes [contents] to that file and returns
    [None], or raises the error of opening the file and writes
    nothing. *)
Theorem export_returns_or_writes (w : World) (self : AdminClient)
    (server_id : pystr) (t : trace) (resp : Response)
    (d : list (pystr * json)) (s : pystr) (contents : bytes) :
  let req := GET (_base_url self ++ lit "/channels/by-server/"
                  ++ server_id ++ lit "/export") in
  response_of (urlopen w req) = Some resp ->
  _is_success_code (code resp) = true ->
  _get_resp_data w resp = Ok (JDict d) ->
  dict_get d (lit "configurationFile") = Some (JStr s) ->
  forallb is_ascii s = true ->
  b64decode w s = Ok contents ->
  export_server_configuration w self server_id None t
  = (Ok (Some contents), t ++ [Sent req])
  /\ forall path,
       export_server_configuration w self server_id (Some path) t
       = match open_for_writing w path with
         | Ok _ => (Ok None, t ++ [Sent req] ++ [Wrote path contents])
         | Raise e => (Raise e, t ++ [Sent req])
         end.
Proof.
  intros req Hresp Hok Hdata Hfield Hascii Hdecode.
  assert (E :
             exchange w (Ok req)
               (fun resp =>
                  _ <- get_triage resp ;;
                  resp_data <- _get_resp_data w resp ;;
                  field <- py_getitem resp_data (lit "configurationFile") ;;
                  encoded <- match field with
                             | JStr s => encode_ascii s
                             | _ => Raise AttributeError
                             end ;;
                  b64decode w encoded)%res t
             = (Ok contents, t ++ [Sent req])).
  { rewrite (exchange_response _ _ _ _ req resp eq_refl Hresp).
    rewrite (get_triage_success resp Hok), Hdata. cbn [rbind py_getitem].
    rewrite Hfield. cbn [rbind]. unfold encode_ascii. rewrite Hascii.
    cbn [rbind]. now rewrite Hdecode. }
  split; [|intro path]; rewrite export_server_configuration_shape;
    fold req; rewrite E; [reflexivity|].
  destruct (open_for_writing w path); [|reflexivity].
  now rewrite <- app_assoc.
Qed.

Lemma export_returns_or_writes_witness :
  export_server_configuration
    (example_world 200 (JDict [(lit "configurationFile", JStr (lit "aGkh"))]))
    example_admin (lit "s1") (Some (lit "out.xml")) []
  = (Ok None,
     [] ++ [Sent (GET (lit "http://localhost:4812/admin/api/1.0/channels/by-server/s1/export"))]
     ++ [Wrote (lit "out.xml") (lit "aGkh")]).
Proof.
  exact (proj2 (export_returns_or_writes
                  (example_world 200
                     (JDict [(lit "configurationFile", JStr (lit "aGkh"))]))
                  example_admin (lit "s1") []
                  (mkResponse 200 json_headers [])
                  [(lit "configurationFile", JStr (lit "aGkh"))]
                  (lit "aGkh") (lit "aGkh") eq_refl eq_refl eq_refl eq_refl
                  eq_refl eq_refl)
           (lit "out.xml")).
Defined.

(** X16. [export_server_configuration] writes at most one file, the one
    it was given, and only after a 2xx response whose
    [configurationFile] it could decode; when it returns the contents
    it writes nothing. *)
Theorem export_writes_only_on_success (w : World) (self : AdminClient)
    (server_id : pystr) (configuration_file : option pystr) (t : trace)
    (path : pystr) (contents : bytes) :
  let req := GET (_base_url self ++ lit "/channels/by-server/"
                  ++ server_id ++ lit "/export") in
  In (Wrote path contents)
     (snd (export_server_configuration w self server_id
             configuration_file t)) ->
  ~ In (Wrote path contents) t ->
  configuration_file = Some path
  /\ export_server_configuration w self server_id configuration_file t
     = (Ok None, t ++ [Sent req] ++ [Wrote path contents])
  /\ exists resp,
       response_of (urlopen w req) = Some resp
       /\ _is_success_code (code resp) = true.
Proof.
  intros req Hin Hnot.
  rewrite export_server_configuration_shape in *. fold req in Hin |- *.
  unfold exchange in *.
  assert (Hpre : ~ In (Wrote path contents) (t ++ [Sent req])).
  { intro H. apply in_app_or in H as [H|[H|[]]];
      [contradiction|discriminate H]. }
  destruct (urlopen w req) as [resp|resp|e] eqn:Hw; cbn [snd] in Hin;
    try (exfalso; exact (Hpre Hin)).
  all: destruct (get_triage resp) as [[]|] eqn:Htriage; cbn [rbind] in *;
    try (exfalso; exact (Hpre Hin)).
  all: assert (Hok : _is_success_code (code resp) = true)
    by (unfold get_triage in Htriage;
        destruct (code resp =? 503); [discriminate|];
        destruct (_is_success_code (code resp)); [reflexivity|discriminate]).
  all: match type of Hin with
       | context [match ?x with Ok _ => _ | Raise _ => _ end] =>
           destruct x as [c|]
       end; cbn [snd] in Hin;
    try (exfalso; exact (Hpre Hin)).
  all: destruct configuration_file as [p|]; cbn [snd] in Hin;
    try (exfalso; exact (Hpre Hin)).
  all: destruct (open_for_writing w p); cbn [snd] in Hin;
    try (exfalso; exact (Hpre Hin)).
  all: apply in_app_or in Hin as [Hin|[Hin|[]]];
    [exfalso; exact (Hpre Hin)|].
  all: injection Hin as -> ->.
  all: split; [reflexivity|]; split; [now rewrite <- app_assoc|].
  all: exists resp; split; [reflexivity|exact Hok].
Qed.

Lemma export_writes_only_on_success_witness :
  export_server_configuration
    (example_world 200
       (JDict [(lit "configurationFile", JStr (lit "YQ=="))]))
    example_admin (lit "s1") (Some (lit "b.xml")) []
  = (Ok None,
     [] ++ [Sent (GET (lit "http://localhost:4812/admin/api/1.0/channels/by-server/s1/export"))]
     ++ [Wrote (lit "b.xml") (lit "YQ==")]).
Proof.
  refine (proj1 (proj2 (export_writes_only_on_success
                   (example_world 200
                      (JDict [(lit "configurationFile",
                               JStr (lit "YQ=="))]))
                   example_admin (lit "s1") (Some (lit "b.xml")) []
                   (lit "b.xml") (lit "YQ==") _ _))).
  - right. left. reflexivity.
  - intros [].
Defined.

(** X17. When the export request is answered with a status outside
    2xx, or with a 2xx body that is an object without
    [configurationFile], [export_server_configuration] raises (the
    failure of the status, or [KeyError]) and writes no file, even when
    it was given a path. *)
Theorem export_failure_writes_nothing (w : World) (self : AdminClient)
    (server_id : pystr) (configuration_file : option pystr) (t : trace)
    (resp : Response) :
  let req := GET (_base_url self ++ lit "/channels/by-server/"
                  ++ server_id ++ lit "/export") in
  response_of (urlopen w req) = Some resp ->
  (_is_success_code (code resp) = false ->
   export_server_configuration w self server_id configuration_file t
   = (Raise (if code resp =? 503 then service_unavailable
             else request_failed (code resp)),
      t ++ [Sent req]))
  /\ (forall d,
         _is_success_code (code resp) = true ->
         _get_resp_data w resp = Ok (JDict d) ->
         dict_get d (lit "configurationFile") = None ->
         export_server_configuration w self server_id configuration_file t
         = (Raise (KeyError (lit "configurationFile")), t ++ [Sent req])).
Proof.
  intros req Hresp. split.
  - intro Hfail. rewrite export_server_configuration_shape. fold req.
    rewrite (exchange_response _ _ _ _ req resp eq_refl Hresp).
    unfold get_triage. rewrite Hfail.
    now destruct (code resp =? 503).
  - intros d Hok Hdata Hnone.
    rewrite export_server_configuration_shape. fold req.
    rewrite (exchange_response _ _ _ _ req resp eq_refl Hresp).
    rewrite (get_triage_success resp Hok), Hdata. cbn [rbind py_getitem].
    now rewrite Hnone.
Qed.

Lemma export_failure_writes_nothing_witness :
  export_server_configuration (example_world 404 JNull) example_admin
    (lit "s1") (Some (lit "out.xml")) []
  = (Raise (request_failed 404),
     [] ++ [Sent (GET (lit "http://localhost:4812/admin/api/1.0/channels/by-server/s1/export"))]).
Proof.
  exact (proj1 (export_failure_writes_nothing (example_world 404 JNull)
                  example_admin (lit "s1") (Some (lit "out.xml")) []
                  (mkResponse 404 json_headers []) eq_refl)
           eq_refl).
Defined.

(** ** [AdminClient.__init__] *)

(** X18. Creating an [AdminClient] succeeds exactly when
    [username:password] has a UTF-8 encoding; the client then holds the
    base URL [http://{server}:{port}/admin/api/1.0] (port 4812, user
    [admin] and the empty password unless given) and the header value
    ["Basic "] followed by the base64 encoding of [username:password],
    which is plain ASCII. *)
Theorem admin_client_init_auth_header (server_name : pystr)
    (server_port : option Z) (username password : option pystr) :
  let credentials :=
    kw (lit "admin") username ++ lit ":" ++ kw (lit "") password in
  AdminClient_init server_name server_port username password
  = (bs <- utf8_encode credentials ;;
     Ok (mkAdminClient (lit "1.0")
           (lit "http://" ++ server_name ++ lit ":"
            ++ str_of_int (kw 4812 server_port) ++ lit "/admin/api/1.0")
           (kw (lit "admin") username) (kw (lit "") password)
           (lit "Basic " ++ b64encode bs)))%res
  /\ forall self,
       AdminClient_init server_name server_port username password = Ok self ->
       forallb is_ascii (admin_auth_header self) = true.
Proof.
  intro credentials.
  assert (E : AdminClient_init server_name server_port username password
              = (bs <- utf8_encode credentials ;;
                 Ok (mkAdminClient (lit "1.0")
                       (lit "http://" ++ server_name ++ lit ":"
                        ++ str_of_int (kw 4812 server_port)
                        ++ lit "/admin/api/1.0")
                       (kw (lit "admin") username) (kw (lit "") password)
                       (lit "Basic " ++ b64encode bs)))%res).
  { unfold AdminClient_init, _generate_auth_header. fold credentials.
    destruct (utf8_encode credentials) as [bs|] eqn:Hc; cbn [rbind];
      [|reflexivity].
    now rewrite (b64encode_ascii bs (utf8_encode_bytes _ _ Hc)). }
  split; [exact E|]. intros self H. rewrite E in H.
  destruct (utf8_encode credentials) as [bs|] eqn:Hc; cbn [rbind] in H;
    [|discriminate H].
  apply Ok_inj in H. subst self. cbn [admin_auth_header].
  rewrite forallb_app.
  now rewrite (proj1 (b64encode_ascii_upto bs) (utf8_encode_bytes _ _ Hc)).
Qed.

Lemma admin_client_init_auth_header_witness :
  forallb is_ascii (admin_auth_header example_admin) = true.
Proof.
  exact (proj2 (admin_client_init_auth_header (lit "localhost") None None
                  None)
           example_admin eq_refl).
Defined.

(** ** [_get_resp_data] *)

Lemma split_no_sep (sep : Z) (s : pystr) :
  ~ In sep s -> split sep s = [s].
Proof.
  induction s as [|c s IH]; intro H; [reflexivity|].
  cbn [split]. destruct (Z.eqb_spec c sep) as [->|_].
  - exfalso. apply H. now left.
  - rewrite IH; [reflexivity|]. intro Hs. apply H. now right.
Qed.

Lemma split_first (sep : Z) (a b : pystr) :
  ~ In sep a -> split sep (a ++ sep :: b) = a :: split sep b.
Proof.
  induction a as [|c a IH]; intro H; cbn [app split].
  - now rewrite Z.eqb_refl.
  - destruct (Z.eqb_spec c sep) as [->|_].
    + exfalso. apply H. now left.
    + rewrite IH; [reflexivity|]. intro Hs. apply H. now right.
Qed.

Lemma split1_first (sep : Z) (a b : pystr) :
  ~ In sep a -> split1 sep (a ++ sep :: b) = [a; b].
Proof.
  induction a as [|c a IH]; intro H; cbn [app split1].
  - now rewrite Z.eqb_refl.
  - destruct (Z.eqb_spec c sep) as [->|_].
    + exfalso. apply H. now left.
    + rewrite IH; [reflexivity|]. intro Hs. apply H. now right.
Qed.

Lemma media_type_of_header (ct header : pystr) :
  ~ In 0x3b ct ->
  header = ct \/ (exists params, header = ct ++ 0x3b :: params) ->
  hd [] (split 0x3b header) = ct.
Proof.
  intros Hct [->|(params & ->)].
  - now rewrite split_no_sep.
  - now rewrite split_first.
Qed.

(** X19. A response without [Content-Type] header makes
    [_get_resp_data] raise [AttributeError]; a response whose media type
    (the header up to its first semicolon) is not exactly
    [application/json] makes it raise "Expected content-type
    application/json, but got ..." with that media type, without
    reading the body. *)
Theorem get_resp_data_requires_json (w : World) (resp : Response)
    (header ct : pystr) :
  (headers_get resp (lit "Content-Type") = None ->
   _get_resp_data w resp = Raise AttributeError)
  /\ (headers_get resp (lit "Content-Type") = Some header ->
      ~ In 0x3b ct ->
      header = ct \/ (exists params, header = ct ++ 0x3b :: params) ->
      ct <> lit "application/json" ->
      _get_resp_data w resp
      = Raise (Exception (JStr
          (lit "Expected content-type application/json, but got "
           ++ ct ++ lit ".")))).
Proof.
  split.
  - intro H. unfold _get_resp_data, _get_content_type_and_charset.
    now rewrite H.
  - intros H Hct Hheader Hneq.
    unfold _get_resp_data, _get_content_type_and_charset.
    rewrite H. cbn [rbind fst snd].
    rewrite (media_type_of_header ct header Hct Hheader).
    destruct (str_eqb ct (lit "application/json")) eqn:E;
      [now apply str_eqb_eq in E|reflexivity].
Qed.

Lemma get_resp_data_requires_json_witness :
  _get_resp_data (example_world 200 JNull)
    (mkResponse 200 (fun _ => Some (lit "text/html; charset=utf-8")) [])
  = Raise (Exception (JStr
      (lit "Expected content-type application/json, but got text/html."))).
Proof.
  refine (proj2 (get_resp_data_requires_json (example_world 200 JNull)
                   (mkResponse 200
                      (fun _ => Some (lit "text/html; charset=utf-8")) [])
                   (lit "text/html; charset=utf-8") (lit "text/html"))
            eq_refl _ _ _).
  - intro H. repeat (destruct H as [H|H]; [discriminate H|]). exact H.
  - right. now exists (lit " charset=utf-8").
  - discriminate.
Defined.

Ltac not_in_literal :=
  let H := fresh in
  intro H; cbn in H;
  repeat (destruct H as [H|H]; [discriminate H|]); try contradiction.



(** ** The URLs of the requests *)

Lemma quote_byte_output (b : Z) :
  is_byte b = true -> forallb quoted_char (quote_byte b) = true.
Proof.
  apply (byte_cases (fun b => forallb quoted_char (quote_byte b))).
  vm_compute. reflexivity.
Qed.

Lemma quote_output (s quoted : pystr) :
  quote s = Ok quoted -> forallb quoted_char quoted = true.
Proof.
  unfold quote. destruct (utf8_encode s) as [bs|] eqn:Hs; cbn [rbind];
    [|discriminate].
  intro H. apply Ok_inj in H. subst quoted.
  pose proof (utf8_encode_bytes _ _ Hs) as Hbs. clear Hs.
  induction bs as [|b bs IH]; [reflexivity|].
  cbn [forallb] in Hbs. apply andb_prop in Hbs as [Hb Hbs].
  cbn [flat_map]. now rewrite forallb_app, (quote_byte_output b Hb), IH.
Qed.

Lemma uint_decimal (u : Decimal.uint) :
  forallb decimal_char (lit (DecimalString.NilEmpty.string_of_uint u))
  = true.
Proof. induction u; [reflexivity|exact IHu..]. Qed.

Lemma str_of_int_decimal (n : Z) :
  forallb decimal_char (str_of_int n) = true.
Proof.
  unfold str_of_int, DecimalString.NilZero.string_of_int,
    DecimalString.NilZero.string_of_uint.
  destruct (Z.to_int n) as [u|u]; destruct u; try reflexivity;
    first [ exact (uint_decimal _) | exact (uint_decimal (_ u)) ].
Qed.

Lemma occurrences_none (p : Z -> bool) (c : Z) (s : pystr) :
  forallb p s = true -> p c = false -> occurrences c s = 0%nat.
Proof.
  intros Hs Hc. unfold occurrences. apply count_occ_not_In.
  intro Hin. rewrite forallb_forall in Hs. apply Hs in Hin. congruence.
Qed.

Lemma occurrences_app (c : Z) (a b : pystr) :
  occurrences c (a ++ b) = (occurrences c a + occurrences c b)%nat.
Proof. apply count_occ_app. Qed.

(** X21. [get_channel] sends one GET, for
    [/channels/all/by-name/{escaped}/] without a server id and for
    [/channels/by-server/{id}/by-name/{escaped}/] with one, where
    [escaped] is the tilde-escaped name, which holds no slash; the
    server id is put in as it is. A name that cannot be encoded raises
    before anything is sent. *)
Theorem get_channel_request (w : World) (self : AdminClient)
    (channel_name : pystr) (server_id : option pystr) (t : trace) :
  (forall escaped,
      _encode_uri_part_custom channel_name = Ok escaped ->
      snd (get_channel w self channel_name server_id t)
      = t ++ [Sent (GET (_base_url self ++
                         match server_id with
                         | None =>
                             lit "/channels/all/by-name/" ++ escaped
                             ++ lit "/"
                         | Some id =>
                             lit "/channels/by-server/" ++ id
                             ++ lit "/by-name/" ++ escaped ++ lit "/"
                         end))]
      /\ occurrences 0x2f escaped = 0%nat)
  /\ (forall e,
         _encode_uri_part_custom channel_name = Raise e ->
         get_channel w self channel_name server_id t = (Raise e, t)).
Proof.
  split.
  - intros escaped H. split.
    + rewrite get_channel_shape. apply exchange_trace. now rewrite H.
    + destruct (encode_uri_part_custom_bytes _ _ H) as (bs & _ & Hbs & ->).
      apply (occurrences_none tilde_output_char); [|reflexivity].
      now apply tilde_escape_bytes_output.
  - intros e H. rewrite get_channel_shape. unfold exchange.
    now rewrite H.
Qed.

Lemma get_channel_request_witness :
  snd (get_channel (example_world 200 JNull) example_admin (lit "a/b")
         (Some (lit "s/1")) [])
  = [] ++ [Sent (GET (lit "http://localhost:4812/admin/api/1.0/channels/by-server/s/1/by-name/a~2Fb/"))].
Proof.
  exact (proj1 (proj1 (get_channel_request (example_world 200 JNull)
                         example_admin (lit "a/b") (Some (lit "s/1")) [])
                  (lit "a~2Fb") eq_refl)).
Defined.

(** X22. [find_channels_by_pattern] sends one GET for
    [/archive/1/channels-by-pattern/{quoted}], where [quoted], the
    percent-encoded pattern, consists of letters, digits, [_.-~] and
    [%] only: the wildcards [*] and [?] and the slash of a pattern are
    always sent encoded. *)
Theorem find_channels_by_pattern_request (w : World) (self : ArchiveClient)
    (pattern quoted : pystr) (t : trace) :
  quote pattern = Ok quoted ->
  snd (find_channels_by_pattern w self pattern t)
  = t ++ [Sent (GET (_base_url self
                     ++ lit "/archive/1/channels-by-pattern/" ++ quoted))]
  /\ forallb quoted_char quoted = true
  /\ occurrences 0x2a quoted = 0%nat
  /\ occurrences 0x3f quoted = 0%nat
  /\ occurrences 0x2f quoted = 0%nat.
Proof.
  intro H. split.
  - rewrite find_channels_by_pattern_shape. apply exchange_trace.
    now rewrite H.
  - pose proof (quote_output _ _ H) as Hq.
    repeat split; try exact Hq;
      (apply (occurrences_none quoted_char); [exact Hq|reflexivity]).
Qed.

Lemma find_channels_by_pattern_request_witness :
  snd (find_channels_by_pattern (example_world 200 (JList []))
         example_archive (lit "a/*?") [])
  = [] ++ [Sent (GET (lit "http://localhost:9812/archive-access/api/1.0/archive/1/channels-by-pattern/a%2F%2A%3F"))].
Proof.
  exact (proj1 (find_channels_by_pattern_request
                  (example_world 200 (JList [])) example_archive
                  (lit "a/*?") (lit "a%2F%2A%3F") [] eq_refl)).
Defined.

(** X23. Whatever the channel name, the URL that [get_samples] asks for
    has one question mark, and its query has the parameters [start] and
    [end], and [count] when the count is positive, and no others: the
    path and query hold one [?], as many [&] as parameters but one, and
    as many [=] as parameters. *)
Theorem get_samples_query_parameters (w : World) (self : ArchiveClient)
    (channel_name : pystr) (start_time end_time : Z) (count : option Z)
    (t : trace) (req : Request) :
  snd (get_samples w self channel_name start_time end_time count t)
  = t ++ [Sent req] ->
  exists path,
    full_url req = _base_url self ++ path
    /\ occurrences 0x3f path = 1%nat
    /\ occurrences 0x26 path
       = (if 0 <? kw 0 count then 2%nat else 1%nat)
    /\ occurrences 0x3d path
       = (if 0 <? kw 0 count then 3%nat else 2%nat)
    /\ occurrences 0x23 path = 0%nat.
Proof.
  intro Hsent. rewrite get_samples_shape in Hsent.
  apply exchange_sent in Hsent.
  destruct (quote channel_name) as [quoted|] eqn:Hq; cbn [rbind] in Hsent;
    [|discriminate Hsent].
  apply Ok_inj in Hsent. subst req.
  exists (samples_path quoted start_time end_time (kw 0 count)).
  split; [reflexivity|].
  pose proof (quote_output _ _ Hq) as Hquoted.
  unfold samples_path.
  destruct (0 <? kw 0 count); repeat split;
    rewrite !occurrences_app;
    repeat match goal with
           | |- context [occurrences ?c quoted] =>
               rewrite (occurrences_none quoted_char c quoted Hquoted
                          eq_refl)
           | |- context [occurrences ?c (str_of_int ?n)] =>
               rewrite (occurrences_none decimal_char c _
                          (str_of_int_decimal n) eq_refl)
           end;
    reflexivity.
Qed.

Lemma get_samples_query_parameters_witness :
  exists path,
    lit "http://localhost:9812/archive-access/api/1.0/archive/1/samples/a%26b%3D1%3Fc?start=-5&end=7&count=3"
    = _base_url example_archive ++ path
    /\ occurrences 0x3f path = 1%nat
    /\ occurrences 0x26 path = 2%nat
    /\ occurrences 0x3d path = 3%nat
    /\ occurrences 0x23 path = 0%nat.
Proof.
  exact (get_samples_query_parameters (example_world 200 (JList []))
           example_archive (lit "a&b=1?c") (-5) 7 (Some 3) []
           (GET (lit "http://localhost:9812/archive-access/api/1.0/archive/1/samples/a%26b%3D1%3Fc?start=-5&end=7&count=3"))
           eq_refl).
Defined.

(** ** The command builders keep the wire format *)

Lemma dict_set_all_str (d : list (pystr * json)) (k : pystr) (v : json) :
  forallb (fun kv => is_str (snd kv)) d = true ->
  is_str v = true ->
  forallb (fun kv => is_str (snd kv)) (dict_set d k v) = true.
Proof.
  intros Hd Hv. induction d as [|[k' v'] d IH]; simpl.
  - now rewrite Hv.
  - simpl in Hd. apply andb_prop in Hd as [H1 H2].
    destruct (str_eqb k' k); simpl.
    + now rewrite Hv.
    + now rewrite H1, (IH H2).
Qed.

Lemma str_dict_comprehension_all_str (elems : list (list atom))
    (acc d : list (pystr * json)) :
  forallb (fun kv => is_str (snd kv)) acc = true ->
  str_dict_comprehension elems acc = Ok d ->
  forallb (fun kv => is_str (snd kv)) d = true.
Proof.
  revert acc. induction elems as [|elem elems IH]; intros acc Hacc H.
  - apply Ok_inj in H. now subst d.
  - cbn [str_dict_comprehension] in H.
    destruct (unpack2 elem) as [kv|]; cbn [rbind] in H; [|discriminate H].
    refine (IH _ _ H). now apply dict_set_all_str.
Qed.

Lemma make_str_dict_wire (o : option dict_like) (v : json) (k : pystr) :
  _make_str_dict o = Ok v ->
  str_eqb k (lit "enabled") = false ->
  wire_field (k, v) = true.
Proof.
  intros H Hk. unfold wire_field. cbn [fst snd]. rewrite Hk.
  destruct o as [o|]; cbn [_make_str_dict] in H.
  - destruct (getattr o (lit "items")) as [items|]; cbn [rbind] in H;
      [|discriminate H].
    destruct (py_iter items) as [elems|]; cbn [rbind] in H;
      [|discriminate H].
    destruct (str_dict_comprehension elems []) as [d|] eqn:Hd;
      cbn [rbind] in H; [|discriminate H].
    apply Ok_inj in H. subst v.
    exact (str_dict_comprehension_all_str elems [] d eq_refl Hd).
  - apply Ok_inj in H. now subst v.
Qed.

Lemma make_str_wire (o : option atom) (k : pystr) :
  str_eqb k (lit "enabled") = false -> wire_field (k, _make_str o) = true.
Proof.
  intro Hk. unfold wire_field. cbn [fst snd]. rewrite Hk.
  now destruct o.
Qed.

Lemma make_str_list_wire (o : option (list atom)) (k : pystr) :
  str_eqb k (lit "enabled") = false ->
  wire_field (k, _make_str_list o) = true.
Proof.
  intro Hk. unfold wire_field. cbn [fst snd]. rewrite Hk.
  destruct o as [l|]; [|reflexivity]. cbn [_make_str_list].
  induction l as [|a l IH]; [reflexivity|exact IH].
Qed.

Ltac wire_fields :=
  repeat match goal with
         | |- context [match ?e with Some _ => _ | None => _ end] =>
             is_var e; destruct e
         end;
  cbn [wire_command forallb];
  repeat match goal with
         | |- context [wire_field (?k, _make_str ?o)] =>
             rewrite (make_str_wire o k eq_refl)
         | |- context [wire_field (?k, _make_str_list ?o)] =>
             rewrite (make_str_list_wire o k eq_refl)
         | H : _make_str_dict ?o = Ok ?v
           |- context [wire_field (?k, ?v)] =>
             rewrite (make_str_dict_wire o v k H eq_refl)
         end;
  reflexivity.

(** X24. A command appended by any of the seven builders has the wire
    format: its [commandType] is the name of the builder, [enabled] is a
    boolean or null, and every other field is null, a string, a list of
    strings or a mapping from strings to strings, so that no number
    reaches the server as a number. *)
Theorem builders_keep_wire_format (command_type : string)
    (call : M ArchiveConfigurationCommands.t unit)
    (self self' : ArchiveConfigurationCommands.t) :
  builder_call command_type call ->
  call self = (Ok tt, self') ->
  exists command,
    self' = self ++ [command]
    /\ wire_command command = true
    /\ py_getitem command (lit "commandType")
       = Ok (JStr (lit command_type)).
Proof.
  intros Hcall Hrun.
  repeat match goal with
         | H : _ \/ _ |- _ => destruct H
         | H : _ /\ _ |- _ => destruct H
         | H : exists _, _ |- _ => destruct H
         | H : builder_call _ _ |- _ => unfold builder_call in H
         end; subst command_type call;
    unfold add_channel, add_or_update_channel, move_channel,
      refresh_channel, remove_channel, rename_channel, update_channel,
      bind, lift, append in Hrun;
    repeat match type of Hrun with
           | context [_make_str_dict ?o] =>
               let v := fresh "v" in
               let E := fresh "E" in
               destruct (_make_str_dict o) as [v|] eqn:E;
               cbn [rbind] in Hrun; [|discriminate Hrun]
           end;
    injection Hrun as <-; eexists; (split; [reflexivity|]);
    (split; [|reflexivity]); wire_fields.
Qed.

Lemma builders_keep_wire_format_witness :
  exists command,
    [JDict
       [(lit "channelName", JStr (lit "ch1"));
        (lit "commandType", JStr (lit "move_channel"));
        (lit "expectedOldServerId", JNull);
        (lit "newServerId", JStr (lit "42"))]]
    = [] ++ [command]
    /\ wire_command command = true
    /\ py_getitem command (lit "commandType")
       = Ok (JStr (lit "move_channel")).
Proof.
  refine (builders_keep_wire_format "move_channel"
            (move_channel (Some (AStr (lit "ch1"))) (Some (AInt 42)) None)
            [] _ _ eq_refl).
  right. right. left. split; [reflexivity|]. repeat eexists.
Defined.

(** X25. A builder call never touches the commands that are already in
    the batch: it either raises and leaves the batch as it was, or
    appends one command at the end; in both cases every earlier command
    is still at its position. *)
Theorem builders_preserve_earlier_commands (command_type : string)
    (call : M ArchiveConfigurationCommands.t unit)
    (self : ArchiveConfigurationCommands.t) :
  builder_call command_type call ->
  ((exists e, call self = (Raise e, self))
   \/ (exists command, call self = (Ok tt, self ++ [command])))
  /\ forall i command,
       nth_error self i = Some command ->
       nth_error (snd (call self)) i = Some command.
Proof.
  intro Hcall.
  assert (H : (exists e, call self = (Raise e, self))
              \/ (exists command, call self = (Ok tt, self ++ [command]))).
  { repeat match goal with
           | H : _ \/ _ |- _ => destruct H
           | H : _ /\ _ |- _ => destruct H
           | H : exists _, _ |- _ => destruct H
           | H : builder_call _ _ |- _ => unfold builder_call in H
           end; subst command_type call;
      unfold add_channel, add_or_update_channel, move_channel,
        refresh_channel, remove_channel, rename_channel, update_channel,
        bind, lift, append;
      repeat match goal with
             | |- context [_make_str_dict ?o] =>
                 destruct (_make_str_dict o); cbn [rbind]
             end;
      first [ left; eexists; reflexivity | right; eexists; reflexivity ]. }
  split; [exact H|]. intros i command Hi.
  destruct H as [(e & ->)|(c & ->)]; cbn [snd]; [exact Hi|].
  rewrite nth_error_app1; [exact Hi|].
  apply nth_error_Some. congruence.
Qed.

Lemma builders_preserve_earlier_commands_witness :
  nth_error
    (snd (add_channel (Some (AStr (lit "ch1"))) None None None None None
            (Some (Dict [])) [JNull]))
    0
  = Some JNull.
Proof.
  refine (proj2 (builders_preserve_earlier_commands "add_channel"
                   (add_channel (Some (AStr (lit "ch1"))) None None None
                      None None (Some (Dict [])))
                   [JNull] _) 0%nat JNull eq_refl).
  left. split; [reflexivity|]. repeat eexists.
Defined.
